(** * compiledtrees: the predictor facade of [compiledtrees/compiled.py]

    A shallow embedding of [CompiledRegressionPredictor] (the class of
    [compiledtrees/compiled.py]) together with the collaborators it drives:
    the code generator and compilation pipeline of [compiledtrees.code_gen]
    and the native loader of [compiledtrees._compiled].

    Python objects live in an explicit world (files, instances, numpy arrays
    and a log of the calls made to the collaborators); Python exceptions are
    the [Raise] results of a state-and-exception monad. *)

From Stdlib Require Import ZArith PrimFloat Uint63.
From Stdlib Require SpecFloat FloatOps.
From stdpp Require Import gmap strings list fin_maps pretty.

#[local] Set Warnings "-register-all".

Local Open Scope nat_scope.

(** ** Numbers

    Thresholds, leaf values, weights and feature values are floating-point
    numbers in the program.  The development only needs the operations the
    program applies to them, so it is stated over any carrier that offers
    them; nothing is assumed about their algebra (no associativity, no
    neutral elements). *)

Class Arith (num : Type) := {
  num_le : num → num → bool;          (* [a <= b] *)
  num_add : num → num → num;          (* [a + b] *)
  num_mul : num → num → num;          (* [a * b] *)
  num_div : num → num → num;          (* [a / b], true division *)
  num_zero : num;                     (* [0.0] *)
  num_one : num;                      (* [1.0] *)
  num_of_int : Z → num;               (* [float(n)] *)
  num_float32 : num → num             (* [np.float32(a)], [a] in single precision *)
}.

(** The name of the entry point of every generated module,
    [cg.EVALUATE_FN_NAME].  The constant is defined in [code_gen], outside the
    file embedded here, so it is a parameter of the development. *)
Class EntryPoint := EVALUATE_FN_NAME : string.

Section Model.

Context {num : Type} `{Arith num} `{EntryPoint}.

(** ** Tree IR *)

(** Modelled from the spec: the node record of the Tree IR (the arrays of the
    fitted tree, indexed by node id, root at index 0); the extraction lives in
    [code_gen], which is not part of the embedded file. *)
Record Node := mkNode {
  feature : nat;
  threshold : num;
  left : nat;
  right : nat;
  value : num;
  is_leaf : bool
}.

Abbreviation Tree := (list Node).

(** The recursive walk of a tree on a feature vector [x], started at node [i]:
    left when [x[feature] <= threshold], right otherwise, until a leaf.
    [fuel] bounds the number of nodes visited; [None] is a walk that leaves
    the node array, reads outside [x], or exhausts the fuel. *)
Fixpoint walk (fuel : nat) (t : Tree) (x : list num) (i : nat) : option num :=
  match fuel with
  | O => None
  | S fuel' =>
      nd ← t !! i;
      if is_leaf nd then Some (value nd)
      else
        xv ← x !! feature nd;
        if num_le xv (threshold nd)
        then walk fuel' t x (left nd)
        else walk fuel' t x (right nd)
  end.

(** The prediction of one tree: the walk from the root. *)
Definition tree_predict (t : Tree) (x : list num) : option num :=
  walk (length t) t x 0.

(** The structural invariant of the Tree IR that extraction from a fitted
    tree guarantees: children of an internal node are inside the node array
    and carry larger ids than their parent (nodes are numbered in creation
    order, so there are no cycles), and every feature index tested is below
    the feature count [nf]. *)
Definition node_ok (nf n i : nat) (nd : Node) : bool :=
  is_leaf nd
  || (bool_decide (i < left nd < n) && bool_decide (i < right nd < n)
      && bool_decide (feature nd < nf)).

Definition tree_ok (nf : nat) (t : Tree) : bool :=
  bool_decide (0 < length t)
  && forallb (λ p, node_ok nf (length t) p.1 p.2) (imap pair t).

(** ** Generated code *)

(** Modelled from the spec: the source text emitted by the Code Generator,
    kept as its syntax tree.  A tree becomes nested conditionals
    [if (f[feature] <= threshold) { ... } else { ... }] ending in
    [return value;]. *)
Inductive stmt :=
| Return (v : num)
| IfLe (feat : nat) (thr : num) (then_ else_ : stmt).

(** Modelled from the spec: a function of the generated source.  A tree
    function evaluates one tree; the ensemble function computes
    [initial_value + weight * sum(tree_i(x))] over the tree functions it
    names. *)
Inductive fundef :=
| TreeFn (name : string) (body : stmt)
| EnsembleFn (name : string) (initial_value weight : num) (callees : list string).

Definition fn_name (fd : fundef) : string :=
  match fd with
  | TreeFn n _ => n
  | EnsembleFn n _ _ _ => n
  end.

(** Modelled from the spec: code emission for the subtree at node [i], one
    nested conditional per internal node.  The emitter recurses on the
    children; [fuel] bounds the recursion depth and [None] is the failure on a
    malformed tree (dangling child id, or a cycle). *)
Fixpoint code_gen_node (fuel : nat) (t : Tree) (i : nat) : option stmt :=
  match fuel with
  | O => None
  | S fuel' =>
      nd ← t !! i;
      if is_leaf nd then Some (Return (value nd))
      else
        l ← code_gen_node fuel' t (left nd);
        r ← code_gen_node fuel' t (right nd);
        Some (IfLe (feature nd) (threshold nd) l r)
  end.

(** Modelled from the spec: [cg.code_gen_tree(tree)], the lines of a source
    whose entry point evaluates [tree]. *)
Definition code_gen_tree (t : Tree) : option (list fundef) :=
  body ← code_gen_node (length t) t 0;
  Some [TreeFn EVALUATE_FN_NAME body].

(** Modelled from the spec: the name of the evaluation function of the
    [i]-th tree of an ensemble (one function per tree, each with a name of its
    own, none of them the entry point). *)
Definition tree_fn_name (i : nat) : string :=
  EVALUATE_FN_NAME +:+ "_" +:+ pretty i.

(** Modelled from the spec: the evaluation functions of the trees of an
    ensemble, in order, numbered from [i]. *)
Fixpoint code_gen_trees (i : nat) (trees : list Tree) : option (list fundef) :=
  match trees with
  | [] => Some []
  | t :: ts =>
      body ← code_gen_node (length t) t 0;
      fs ← code_gen_trees (S i) ts;
      Some (TreeFn (tree_fn_name i) body :: fs)
  end.

(** Modelled from the spec: [cg.code_gen_ensemble(trees,
    individual_learner_weight, initial_value)], one evaluation function per
    tree plus the top-level function. *)
Definition code_gen_ensemble (trees : list Tree) (individual_learner_weight initial_value : num)
  : option (list fundef) :=
  fs ← code_gen_trees 0 trees;
  Some (fs ++ [EnsembleFn EVALUATE_FN_NAME initial_value individual_learner_weight
                 (tree_fn_name <$> seq 0 (length trees))]).

(** ** Semantics of the generated code *)

(** Modelled from the spec: what the compiled conditionals compute on the row
    [x]; [None] is a read outside the row. *)
Fixpoint exec_stmt (s : stmt) (x : list num) : option num :=
  match s with
  | Return v => Some v
  | IfLe f thr l r =>
      xv ← x !! f;
      if num_le xv thr then exec_stmt l x else exec_stmt r x
  end.

(** Modelled from the spec: symbol resolution inside a module, the first
    function of that name. *)
Fixpoint find_symbol (code : list fundef) (name : string) : option fundef :=
  match code with
  | [] => None
  | fd :: rest => if decide (fn_name fd = name) then Some fd else find_symbol rest name
  end.

(** Modelled from the spec: a call from the top-level function to the
    evaluation function of a tree. *)
Definition call_tree (code : list fundef) (x : list num) (name : string) : option num :=
  fd ← find_symbol code name;
  match fd with
  | TreeFn _ body => exec_stmt body x
  | EnsembleFn _ _ _ _ => None
  end.

(** [sum(...)]: the running total starts at zero and adds the terms in
    order. *)
Definition num_sum (vs : list num) : num := foldl num_add num_zero vs.

(** Modelled from the spec: one native call of a resolved function on a row
    of features. *)
Definition call_fundef (code : list fundef) (fd : fundef) (x : list num) : option num :=
  match fd with
  | TreeFn _ body => exec_stmt body x
  | EnsembleFn _ init w callees =>
      vs ← mapM (call_tree code x) callees;
      Some (num_add init (num_mul w (num_sum vs)))
  end.

(** ** Python values, numpy arrays and the fitted models *)

Inductive dtype := float32 | float64 | int64 | object_.

#[global] Instance dtype_eq_dec : EqDecision dtype.
Proof. solve_decision. Defined.

(** [sklearn.tree.tree.DTYPE], the element type of the tree's inputs. *)
Definition DTYPE : dtype := float32.

(** A numpy array: element type, shape and the row-major buffer.  The buffer
    holds what was written to it: a write narrows the value to the element
    type of the array (see [store]). *)
Record ndarray := mkArray {
  arr_dtype : dtype;
  arr_shape : list nat;
  arr_data : list num
}.

(** The value a cell of element type [d] holds once [v] is assigned to it:
    a single-precision cell holds [v] rounded to single precision, a
    double-precision or object cell holds [v] as it is.  (The program assigns
    to arrays of type [DTYPE] only; the truncation of an integer cell is not
    modelled.) *)
Definition as_dtype (d : dtype) (v : num) : num :=
  match d with
  | float32 => num_float32 v
  | _ => v
  end.

(** The content of a file: a shared module (kept as the code it was compiled
    from; the native compiler is taken to preserve the meaning of the source)
    or any other bytes. *)
Inductive blob :=
| SharedObject (code : list fundef)
| OtherBytes (s : string).

Inductive pyval :=
| PNone
| PBool (b : bool)
| PInt (z : Z)
| PStr (s : string)
| PDtype (d : dtype)
| PShape (sh : list nat)
| PBytes (b : blob).

(** Truth value of a Python object, as [not], [and] and [all] test it. *)
Definition truthy (v : pyval) : bool :=
  match v with
  | PNone => false
  | PBool b => b
  | PInt z => negb (z =? 0)%Z
  | PStr s => negb (bool_decide (s = EmptyString))
  | PDtype _ => true
  | PShape sh => negb (bool_decide (sh = []))
  | PBytes _ => true
  end.

(** [a and b]: [a] when [a] is false, else [b]. *)
Definition py_and (a b : pyval) : pyval := if truthy a then b else a.

(** [v == n] for an integer [n] ([True == 1] and [False == 0] hold in
    Python; values of other types are never equal to an integer). *)
Definition py_eq_int (v : pyval) (n : Z) : bool :=
  match v with
  | PInt z => (z =? n)%Z
  | PBool b => ((if b then 1 else 0) =? n)%Z
  | _ => false
  end.

(** The objects the facade is given as models or finds as members of one,
    by the class [isinstance] recognises; [cls] is
    [clf.__class__.__name__].  Attributes of an unfitted tree are [None].
    [init_prior] is the value of
    [clf._init_decision_function(np.zeros(shape=(1, n_features))).item((0, 0))].
    The object array [estimators_] of a gradient-boosted model, of shape
    [(n_estimators, 1)], is kept as the sequence [estimators_.flat]
    enumerates, whose length is [estimators_.size]; [estimators_] of a forest
    is the Python list of its members.  [SequenceObject] is an object of any
    other class that has [__len__] and [__getitem__], strings apart: a list or
    a tuple of estimators, an ensemble of another kind (bagging, for one), an
    array of objects.  [OtherObject] is any other object. *)
Inductive model :=
| DecisionTreeRegressor (cls : string) (n_outputs_ n_classes_ : option Z)
    (n_features_ : nat) (tree_ : option Tree)
| GradientBoostingRegressor (cls : string) (n_features : nat)
    (learning_rate init_prior : num) (estimators_ : list model)
| ForestRegressor (cls : string) (n_features_ : nat) (n_estimators : Z)
    (estimators_ : list model)
| SequenceObject (cls : string) (items : list model)
| OtherObject (cls : string).

Definition class_name (clf : model) : string :=
  match clf with
  | DecisionTreeRegressor c _ _ _ _ => c
  | GradientBoostingRegressor c _ _ _ _ => c
  | ForestRegressor c _ _ _ => c
  | SequenceObject c _ => c
  | OtherObject c => c
  end.

(** *** [np.asarray] on a list of objects

    To turn a list of objects into an array numpy looks for the shape of the
    nesting: an object with [__len__] and [__getitem__] is a sequence, and a
    dimension is kept as long as every object at that depth is a sequence of
    one and the same length.  The objects at the depth where this stops are
    the elements of the array, whether they are sequences or not.  (numpy
    looks no deeper than 32 levels; the nesting of the objects here is taken
    to be shallower.) *)

(** The longest common prefix of two shapes. *)
Fixpoint common_prefix (a b : list nat) : list nat :=
  match a, b with
  | n :: a', m :: b' => if decide (n = m) then n :: common_prefix a' b' else []
  | _, _ => []
  end.

(** The dimensions the objects of a list agree on; none for an empty
    list. *)
Definition common_dims (ds : list (list nat)) : list nat :=
  match ds with
  | [] => []
  | d :: ds' => foldl common_prefix d ds'
  end.

(** The shape numpy finds in one object: none in an object that is no
    sequence; in a sequence its length, then the dimensions its items agree
    on.  The items of a gradient-boosted ensemble, [clf[i]], are the rows of
    its array [estimators_], each an array of shape [(1,)]. *)
Fixpoint dims (e : model) : list nat :=
  match e with
  | SequenceObject _ items => length items :: common_dims (dims <$> items)
  | ForestRegressor _ _ _ estimators_ =>
      length estimators_ :: common_dims (dims <$> estimators_)
  | GradientBoostingRegressor _ _ _ _ estimators_ =>
      length estimators_ :: common_dims ((λ _, [1]) <$> estimators_)
  | _ => []
  end.

(** [e[0], e[1], ...] for a sequence [e]. *)
Definition sequence_items (e : model) : list model :=
  match e with
  | SequenceObject _ items => items
  | ForestRegressor _ _ _ estimators_ => estimators_
  | GradientBoostingRegressor _ _ _ _ estimators_ =>
      (λ e, SequenceObject "ndarray" [e]) <$> estimators_
  | _ => []
  end.

(** The objects [d] levels below [e]. *)
Fixpoint descend (d : nat) (e : model) : list model :=
  match d with
  | 0 => [e]
  | S d' => sequence_items e ≫= descend d'
  end.

(** [np.asarray(l).shape] and the elements [np.asarray(l).flat] enumerates;
    [np.asarray(l).size] is their number. *)
Definition np_asarray_shape (l : list model) : list nat :=
  length l :: common_dims (dims <$> l).

Definition np_asarray_flat (l : list model) : list model :=
  l ≫= descend (length (common_dims (dims <$> l))).

(** The nesting depth of an object: the depth of the recursion of
    [compilable] on it is no larger. *)
Fixpoint height (e : model) : nat :=
  match e with
  | GradientBoostingRegressor _ _ _ _ estimators_ => S (max_list (height <$> estimators_))
  | ForestRegressor _ _ _ estimators_ => S (max_list (height <$> estimators_))
  | SequenceObject _ items => S (max_list (height <$> items))
  | _ => 0
  end.

(** ** The world: files, instances, arrays and the log of collaborator calls *)

(** Modelled from the spec: the evaluator of [_compiled.CompiledPredictor],
    the loaded module and the function resolved from it. *)
Record evaluator := mkEvaluator {
  ev_module : list fundef;
  ev_entry : fundef
}.

(** The attributes of a [CompiledRegressionPredictor] instance; [None] is an
    attribute not assigned yet. *)
Record instance := mkInstance {
  _n_features : option pyval;
  _evaluator : option evaluator;
  _so_f : option string
}.

Inductive event :=
| EvCodeGenTree (tree : option Tree)
| EvCodeGenEnsemble (trees : list (option Tree))
    (individual_learner_weight initial_value : num)
| EvCompile (source : list fundef)
| EvLoad (path symbol : string)
| EvNativeCall (row : list num).

Record world := mkWorld {
  files : gmap string blob;
  compiler_ok : bool;
  objects : gmap nat instance;
  arrays : gmap nat ndarray;
  log : list event
}.

Inductive exn :=
| ValueError (template : string) (args : list pyval)
| AttributeError (attr : string)
| KeyError (key : string)
| TypeError
| ZeroDivisionError
| AssertionError
| IOError (path : string)
| StructuralInvariantError
| CompilationFailure
| LoadFailure (path symbol : string)
| NativeFault.

Inductive result (A : Type) :=
| Ok (a : A)
| Raise (e : exn).
Arguments Ok {A} a.
Arguments Raise {A} e.

(** Computations: they read and change the world and return or raise. *)
Definition M (A : Type) : Type := world → result A * world.

Definition ret {A} (a : A) : M A := λ w, (Ok a, w).
Definition raise {A} (e : exn) : M A := λ w, (Raise e, w).
Definition bind {A B} (m : M A) (k : A → M B) : M B :=
  λ w, match m w with
       | (Ok a, w') => k a w'
       | (Raise e, w') => (Raise e, w')
       end.

Notation "'let*' x := m 'in' k" := (bind m (λ x, k))
  (at level 10, x pattern, k at level 200).

Definition emit (e : event) : M unit :=
  λ w, (Ok tt, mkWorld (files w) (compiler_ok w) (objects w) (arrays w) (log w ++ [e])).

Fixpoint for_each {A B} (f : A → M B) (l : list A) : M (list B) :=
  match l with
  | [] => ret []
  | a :: l' => let* b := f a in let* bs := for_each f l' in ret (b :: bs)
  end.

(** *** Collaborators: code generator, compilation pipeline, native loader *)

(** Modelled from the spec: the call [cg.code_gen_tree(tree=...)] as the
    facade sees it.  The call is logged; a tree that is [None] or violates the
    structural invariant fails fast. *)
Definition cg_code_gen_tree (tree : option Tree) : M (list fundef) :=
  let* _ := emit (EvCodeGenTree tree) in
  match tree ≫= code_gen_tree with
  | Some lines => ret lines
  | None => raise StructuralInvariantError
  end.

(** Modelled from the spec: the call [cg.code_gen_ensemble(trees=...,
    individual_learner_weight=..., initial_value=...)]. *)
Definition cg_code_gen_ensemble (trees : list (option Tree))
    (individual_learner_weight initial_value : num) : M (list fundef) :=
  let* _ := emit (EvCodeGenEnsemble trees individual_learner_weight initial_value) in
  match mapM id trees ≫= λ ts, code_gen_ensemble ts individual_learner_weight initial_value with
  | Some lines => ret lines
  | None => raise StructuralInvariantError
  end.

(** Modelled from the spec: [cg.compile_code_to_object(source)].  The external
    compiler turns the source into a shared module at a transient path nobody
    uses yet, and returns the path; an unavailable or failing compiler is a
    compilation failure. *)
Definition compile_code_to_object (source : list fundef) : M string :=
  let* _ := emit (EvCompile source) in
  λ w,
    if compiler_ok w then
      let path := fresh (dom (files w)) in
      (Ok path,
       mkWorld (<[path := SharedObject source]> (files w)) (compiler_ok w)
         (objects w) (arrays w) (log w))
    else (Raise CompilationFailure, w).

(** Modelled from the spec: [_compiled.CompiledPredictor(path, symbol)], which
    opens the module at [path] and resolves [symbol]; a missing file, a file
    that is not a module and an absent symbol are load failures. *)
Definition CompiledPredictor (path symbol : string) : M evaluator :=
  let* _ := emit (EvLoad path symbol) in
  λ w,
    match files w !! path with
    | Some (SharedObject code) =>
        match find_symbol code symbol with
        | Some fd => (Ok (mkEvaluator code fd), w)
        | None => (Raise (LoadFailure path symbol), w)
        end
    | _ => (Raise (LoadFailure path symbol), w)
    end.

(** *** numpy *)

Definition get_array (a : nat) : M ndarray :=
  λ w, match arrays w !! a with
       | Some arr => (Ok arr, w)
       | None => (Raise TypeError, w)
       end.

(** [np.empty(n, dtype=d)]: a new one-dimensional array.  Its content is
    unspecified; the model fills it with zeros. *)
Definition np_empty (n : nat) (d : dtype) : M nat :=
  λ w,
    let a := fresh (dom (arrays w)) in
    (Ok a,
     mkWorld (files w) (compiler_ok w) (objects w)
       (<[a := mkArray d [n] (replicate n num_zero)]> (arrays w)) (log w)).

(** [out[i] = v]: the cell takes [v] narrowed to the element type of
    [out]. *)
Definition store (out i : nat) (v : num) : M unit :=
  λ w,
    (Ok tt,
     mkWorld (files w) (compiler_ok w) (objects w)
       (alter (λ arr, mkArray (arr_dtype arr) (arr_shape arr)
                        (<[i := as_dtype (arr_dtype arr) v]> (arr_data arr)))
          out (arrays w))
       (log w)).

(** Row [i] of a row-major matrix with [nf] columns. *)
Definition row (nf : nat) (data : list num) (i : nat) : list num :=
  take nf (drop (i * nf) data).

Definition rows (n nf : nat) (data : list num) : list (list num) :=
  row nf data <$> seq 0 n.

(** Modelled from the spec: the batch loop of the evaluator, one call of the
    resolved function per sample row, the result written at the index of the
    row. *)
Fixpoint predict_rows (ev : evaluator) (rs : list (list num)) (i out : nat) : M unit :=
  match rs with
  | [] => ret tt
  | r :: rs' =>
      let* _ := emit (EvNativeCall r) in
      match call_fundef (ev_module ev) (ev_entry ev) r with
      | Some v =>
          let* _ := store out i v in
          predict_rows ev rs' (S i) out
      | None => raise NativeFault
      end
  end.

(** Modelled from the spec: [evaluator.predict(X, output)] of
    [_compiled.CompiledPredictor]; it fills and returns the output buffer. *)
Definition evaluator_predict (ev : evaluator) (X out : nat) : M nat :=
  let* Xarr := get_array X in
  match arr_shape Xarr with
  | [n_samples; n_features] =>
      let* _ := predict_rows ev (rows n_samples n_features (arr_data Xarr)) 0 out in
      ret out
  | _ => raise TypeError
  end.

(** *** Instances and their attributes *)

Definition empty_instance : instance := mkInstance None None None.

(** [object.__new__(cls)]: a new instance with no attribute. *)
Definition new_instance : M nat :=
  λ w,
    let o := fresh (dom (objects w)) in
    (Ok o,
     mkWorld (files w) (compiler_ok w) (<[o := empty_instance]> (objects w))
       (arrays w) (log w)).

Definition getattr {A} (name : string) (field : instance → option A) (self : nat) : M A :=
  λ w, match objects w !! self ≫= field with
       | Some v => (Ok v, w)
       | None => (Raise (AttributeError name), w)
       end.

Definition setattr (update : instance → instance) (self : nat) : M unit :=
  λ w,
    (Ok tt,
     mkWorld (files w) (compiler_ok w) (alter update self (objects w))
       (arrays w) (log w)).

Definition set_n_features (v : pyval) (i : instance) : instance :=
  mkInstance (Some v) (_evaluator i) (_so_f i).
Definition set_evaluator (ev : evaluator) (i : instance) : instance :=
  mkInstance (_n_features i) (Some ev) (_so_f i).
Definition set_so_f (p : string) (i : instance) : instance :=
  mkInstance (_n_features i) (_evaluator i) (Some p).

(** *** Files *)

(** [open(path).read()] (Python 2 on POSIX: the bytes of the file as they
    are) *)
Definition read_file (path : string) : M blob :=
  λ w, match files w !! path with
       | Some b => (Ok b, w)
       | None => (Raise (IOError path), w)
       end.

(** [tempfile.NamedTemporaryFile(delete=False)]: an empty file at a fresh
    path, which outlives the [with] block. *)
Definition NamedTemporaryFile : M string :=
  λ w,
    let path := fresh (dom (files w)) in
    (Ok path,
     mkWorld (<[path := OtherBytes EmptyString]> (files w)) (compiler_ok w)
       (objects w) (arrays w) (log w)).

(** [tf.write(v)] on a file opened in binary mode. *)
Definition write_file (path : string) (v : pyval) : M unit :=
  match v with
  | PBytes b =>
      λ w, (Ok tt,
            mkWorld (<[path := b]> (files w)) (compiler_ok w) (objects w)
              (arrays w) (log w))
  | _ => raise TypeError
  end.

(** [state[key]] *)
Definition getitem (state : gmap string pyval) (key : string) : M pyval :=
  match state !! key with
  | Some v => ret v
  | None => raise (KeyError key)
  end.

(** ** The class [CompiledRegressionPredictor] *)

(** [compilable(cls, clf)], with the depth of its recursion bounded by
    [fuel]: the calls on the elements of [estimators_.flat] (boosting) and of
    [np.asarray(estimators_).flat] (forest) run with one unit less.  Out of
    fuel the answer is [False]; [height clf + 1] units are enough
    ([compilable_at_enough]). *)
Fixpoint compilable_at (fuel : nat) (clf : model) : pyval :=
  match fuel with
  | 0 => PBool false
  | S fuel' =>
      match clf with
      | DecisionTreeRegressor _ n_outputs_ n_classes_ _ tree_ =>
          PBool (bool_decide (n_outputs_ = Some 1%Z)
                 && bool_decide (n_classes_ = Some 1%Z)
                 && bool_decide (is_Some tree_))
      | GradientBoostingRegressor _ _ _ _ estimators_ =>
          py_and (PInt (Z.of_nat (length estimators_)))
                 (PBool (forallb (λ e, truthy (compilable_at fuel' e)) estimators_))
      | ForestRegressor _ _ _ estimators_ =>
          let estimators := np_asarray_flat estimators_ in
          py_and (PInt (Z.of_nat (length estimators)))
                 (PBool (forallb (λ e, truthy (compilable_at fuel' e)) estimators))
      | _ => PBool false
      end
  end.

Definition compilable (clf : model) : pyval :=
  compilable_at (S (height clf)) clf.

(** [e.tree_] in the comprehensions of [_build]. *)
Definition tree_attr (e : model) : M (option Tree) :=
  match e with
  | DecisionTreeRegressor _ _ _ _ tree_ => ret tree_
  | _ => raise (AttributeError "tree_")
  end.

(** [1.0 / n] for an integer [n]. *)
Definition one_over (n : Z) : M num :=
  if (n =? 0)%Z then raise ZeroDivisionError
  else ret (num_div num_one (num_of_int n)).

Definition assert_not_None {A} (v : option A) : M A :=
  match v with
  | Some a => ret a
  | None => raise AssertionError
  end.

(** [_build(cls, clf)].  The three [isinstance] blocks run in sequence on the
    pair [(lines, n_features)], which starts as [(None, None)];
    ["\n".join(lines)] is the source the lines make up. *)
Definition _build (clf : model) : M (pyval * evaluator * string) :=
  if negb (truthy (compilable clf)) then
    raise (ValueError "Predictor {} cannot be compiled" [PStr (class_name clf)])
  else
    let* st1 :=
      match clf with
      | DecisionTreeRegressor _ _ _ n_features_ tree_ =>
          let* lines := cg_code_gen_tree tree_ in
          ret (Some lines, Some n_features_)
      | _ => ret (None, None)
      end in
    let* st2 :=
      match clf with
      | GradientBoostingRegressor _ n_features learning_rate init_prior estimators_ =>
          let initial_value := init_prior in
          let* trees := for_each tree_attr estimators_ in
          let* lines := cg_code_gen_ensemble trees learning_rate initial_value in
          ret (Some lines, Some n_features)
      | _ => ret st1
      end in
    let* st3 :=
      match clf with
      | ForestRegressor _ n_features_ n_estimators estimators_ =>
          let* trees := for_each tree_attr estimators_ in
          let* weight := one_over n_estimators in
          let* lines := cg_code_gen_ensemble trees weight num_zero in
          ret (Some lines, Some n_features_)
      | _ => ret st2
      end in
    let* n_features := assert_not_None st3.2 in
    let* lines := assert_not_None st3.1 in
    let* so_f := compile_code_to_object lines in
    let* evaluator := CompiledPredictor so_f EVALUATE_FN_NAME in
    ret (PInt (Z.of_nat n_features), evaluator, so_f).

(** [__init__(self, clf)] *)
Definition __init__ (self : nat) (clf : model) : M unit :=
  let* r := _build clf in
  let* _ := setattr (set_n_features r.1.1) self in
  let* _ := setattr (set_evaluator r.1.2) self in
  setattr (set_so_f r.2) self.

(** [CompiledRegressionPredictor(clf)] *)
Definition new_predictor (clf : model) : M nat :=
  let* self := new_instance in
  let* _ := __init__ self clf in
  ret self.

(** [__getstate__(self)] *)
Definition __getstate__ (self : nat) : M (gmap string pyval) :=
  let* n_features := getattr "_n_features" _n_features self in
  let* path := getattr "_so_f" _so_f self in
  let* so_f := read_file path in
  ret (<["n_features" := n_features]> (<["so_f" := PBytes so_f]> ∅)).

(** [__setstate__(self, state)] *)
Definition __setstate__ (self : nat) (state : gmap string pyval) : M unit :=
  let* tf_name := NamedTemporaryFile in
  let* so_f := getitem state "so_f" in
  let* _ := write_file tf_name so_f in
  let* n_features := getitem state "n_features" in
  let* _ := setattr (set_n_features n_features) self in
  let* _ := setattr (set_so_f tf_name) self in
  let* evaluator := CompiledPredictor tf_name EVALUATE_FN_NAME in
  setattr (set_evaluator evaluator) self.

(** Unpickling: a new instance, then [__setstate__]. *)
Definition restore (state : gmap string pyval) : M nat :=
  let* self := new_instance in
  let* _ := __setstate__ self state in
  ret self.

(** The message templates of the three checks of [predict]. *)
Definition dtype_message : string := "X.dtype is {}, not {}".
Definition ndim_message : string :=
  "Input must be 2-dimensional (n_samples, n_features), not {}".
Definition n_features_message : string :=
  "Number of features of the model must  match the input. Model n_features is {} and  input n_features is {}".

(** [predict(self, X)] *)
Definition predict (self X : nat) : M nat :=
  let* Xarr := get_array X in
  if bool_decide (arr_dtype Xarr ≠ DTYPE) then
    raise (ValueError dtype_message [PDtype (arr_dtype Xarr); PDtype DTYPE])
  else if bool_decide (length (arr_shape Xarr) ≠ 2) then
    raise (ValueError ndim_message [PShape (arr_shape Xarr)])
  else
    match arr_shape Xarr with
    | [n_samples; n_features] =>
        let* self_n_features := getattr "_n_features" _n_features self in
        if negb (py_eq_int self_n_features (Z.of_nat n_features)) then
          raise (ValueError n_features_message
                   [self_n_features; PInt (Z.of_nat n_features)])
        else
          let* result := np_empty n_samples DTYPE in
          let* evaluator := getattr "_evaluator" _evaluator self in
          evaluator_predict evaluator X result
    | _ => raise TypeError
    end.

(** ** Specification vocabulary *)



(** The invariants a model fitted by the external library satisfies, beyond
    what [compilable] tests: the members of an ensemble are tree regressors,
    every tree satisfies the structural invariant of the Tree IR for the
    feature count of the model, and a forest has a non-zero [n_estimators]. *)
Definition member_ok (nf : nat) (e : model) : bool :=
  match e with
  | DecisionTreeRegressor _ _ _ _ (Some t) => tree_ok nf t
  | _ => false
  end.

Definition fitted_ok (clf : model) : bool :=
  match clf with
  | DecisionTreeRegressor _ _ _ nf (Some t) => tree_ok nf t
  | GradientBoostingRegressor _ nf _ _ es => forallb (member_ok nf) es
  | ForestRegressor _ nf n es => forallb (member_ok nf) es && negb (n =? 0)%Z
  | _ => false
  end.

(** The feature count of a model, [n_features_] or [n_features]. *)
Definition model_n_features (clf : model) : nat :=
  match clf with
  | DecisionTreeRegressor _ _ _ nf _ => nf
  | GradientBoostingRegressor _ nf _ _ _ => nf
  | ForestRegressor _ nf _ _ => nf
  | _ => 0
  end.

(** The prediction the model itself defines on a feature vector: the walk of
    a single tree, and [initial_value + weight * sum] of the walks of the
    member trees of an ensemble. *)
Definition member_predict (x : list num) (e : model) : option num :=
  match e with
  | DecisionTreeRegressor _ _ _ _ (Some t) => tree_predict t x
  | _ => None
  end.

Definition model_predict (clf : model) (x : list num) : option num :=
  match clf with
  | DecisionTreeRegressor _ _ _ _ (Some t) => tree_predict t x
  | GradientBoostingRegressor _ _ learning_rate init_prior es =>
      vs ← mapM (member_predict x) es;
      Some (num_add init_prior (num_mul learning_rate (num_sum vs)))
  | ForestRegressor _ _ n_estimators es =>
      vs ← mapM (member_predict x) es;
      Some (num_add num_zero
              (num_mul (num_div num_one (num_of_int n_estimators)) (num_sum vs)))
  | _ => None
  end.



(** The [tree_] attributes of the members of an ensemble. *)
Definition member_tree (e : model) : option Tree :=
  match e with
  | DecisionTreeRegressor _ _ _ _ t => t
  | _ => None
  end.

(** The call to the code generator that [_build] is expected to make. *)
Definition code_gen_call (clf : model) : event :=
  match clf with
  | DecisionTreeRegressor _ _ _ _ t => EvCodeGenTree t
  | GradientBoostingRegressor _ _ learning_rate init_prior es =>
      EvCodeGenEnsemble (member_tree <$> es) learning_rate init_prior
  | ForestRegressor _ _ n_estimators es =>
      EvCodeGenEnsemble (member_tree <$> es)
        (num_div num_one (num_of_int n_estimators)) num_zero
  | _ => EvCodeGenTree None
  end.

(** An input the facade accepts for a model of [nf] features: element type
    [DTYPE], two dimensions, [nf] columns, and a buffer of the matching
    size. *)
Definition valid_input (nf : nat) (X : ndarray) (n_samples : nat) : Prop :=
  arr_dtype X = DTYPE ∧ arr_shape X = [n_samples; nf]
  ∧ length (arr_data X) = n_samples * nf.

(** The three ways an input of [predict] can mismatch a predictor that
    recorded [nf] features: wrong element type, not two-dimensional, or a
    second dimension that is not [nf]. *)
Definition input_mismatch (nf : nat) (X : ndarray) : Prop :=
  arr_dtype X ≠ DTYPE
  ∨ length (arr_shape X) ≠ 2
  ∨ ∃ m, arr_shape X !! 1 = Some m ∧ m ≠ nf.

(** A predictor ready to serve: the three attributes are assigned, and the
    evaluator holds the entry point of the module stored at [_so_f]. *)
Definition ready (w : world) (self : nat) : Prop :=
  ∃ nf code fd path,
    objects w !! self
      = Some (mkInstance (Some (PInt (Z.of_nat nf))) (Some (mkEvaluator code fd)) (Some path))
    ∧ files w !! path = Some (SharedObject code)
    ∧ find_symbol code EVALUATE_FN_NAME = Some fd.


(** The second half of [_build]: compile the source, load the module. *)
Definition compile_and_load (n_features : nat) (lines : list fundef)
  : M (pyval * evaluator * string) :=
  let* so_f := compile_code_to_object lines in
  let* evaluator := CompiledPredictor so_f EVALUATE_FN_NAME in
  ret (PInt (Z.of_nat n_features), evaluator, so_f).

(** ** Vocabulary for failures and frames *)


(** [m] takes every world to a world related to it by [R]. *)
Definition keeps {A} (R : world → world → Prop) (m : M A) : Prop :=
  ∀ w, R w (m w).2.

(** What a build may do to the world: add files and log entries.  The
    instances, the arrays and the files that exist stay as they are. *)
Definition build_frame (w w' : world) : Prop :=
  compiler_ok w' = compiler_ok w
  ∧ objects w' = objects w
  ∧ arrays w' = arrays w
  ∧ files w ⊆ files w'
  ∧ log w `prefix_of` log w'.


(** [isinstance(e, DecisionTreeRegressor)] *)
Definition is_tree_regressor (e : model) : bool :=
  match e with
  | DecisionTreeRegressor _ _ _ _ _ => true
  | _ => false
  end.

(** Whether an ensemble is one: [isinstance] of one of the two ensemble
    classes, with its members. *)
Definition ensemble_members (clf : model) : option (list model) :=
  match clf with
  | GradientBoostingRegressor _ _ _ _ es => Some es
  | ForestRegressor _ _ _ es => Some es
  | _ => None
  end.

(** The world with other files. *)
Definition with_files (fs : gmap string blob) (w : world) : world :=
  mkWorld fs (compiler_ok w) (objects w) (arrays w) (log w).

(** Whether the loader finds the entry point in a file content. *)
Definition loadable (b : blob) : bool :=
  match b with
  | SharedObject code => bool_decide (is_Some (find_symbol code EVALUATE_FN_NAME))
  | OtherBytes _ => false
  end.

End Model.

Arguments Ok {num A} a.
Arguments Raise {num A} e.

(** ** A concrete instance: binary64 numbers and a depth-1 tree *)

(** [float(n)]: the integer rounded to the nearest binary64 number (an
    infinity past the range of the format, where Python raises
    [OverflowError]). *)
Definition float_of_int (z : Z) : float :=
  FloatOps.SF2Prim (SpecFloat.binary_normalize FloatOps.prec FloatOps.emax z 0 false).

(** [np.float32(a)]: the binary64 number rounded to the nearest number of
    the binary32 format (24 bits of precision, exponents below 128), ties to
    even, as the conversion of IEEE 754 does; a number too large becomes an
    infinity. *)
Definition to_float32 (a : float) : float :=
  match FloatOps.Prim2SF a with
  | SpecFloat.S754_finite s m e => FloatOps.SF2Prim (SpecFloat.binary_round 24 128 s m e)
  | _ => a
  end.

#[global] Instance float_arith : Arith float := {|
  num_le := PrimFloat.leb;
  num_add := PrimFloat.add;
  num_mul := PrimFloat.mul;
  num_div := PrimFloat.div;
  num_zero := 0%float;
  num_one := 1%float;
  num_of_int := float_of_int;
  num_float32 := to_float32
|}.

#[global] Instance evaluate_entry : EntryPoint := "evaluate".

(** The tree [feature=0, threshold=0.5, left leaf=1.0, right leaf=2.0]. *)
Definition stump : list (@Node float) :=
  [ mkNode 0 0.5%float 1 2 0%float false;
    mkNode 0 0%float 0 0 1%float true;
    mkNode 0 0%float 0 0 2%float true ].

Definition stump_model : @model float :=
  DecisionTreeRegressor "DecisionTreeRegressor" (Some 1%Z) (Some 1%Z) 1 (Some stump).

(** Two such trees averaged, and two such trees boosted. *)
Definition forest_model : @model float :=
  ForestRegressor "RandomForestRegressor" 1 2 [stump_model; stump_model].



(** An ensemble whose only member is an ensemble. *)
Definition nested_model : @model float :=
  GradientBoostingRegressor "GradientBoostingRegressor" 1 0.5%float 0%float
    [forest_model].

(** Three samples of one feature, and the same values as a flat vector and
    with the wrong element type. *)
Definition sample_X : @ndarray float := mkArray float32 [3; 1] [0.25; 0.5; 0.75]%float.
Definition flat_X : @ndarray float := mkArray float32 [3] [0.25; 0.5; 0.75]%float.
Definition double_flat_X : @ndarray float := mkArray float64 [3] [0.25; 0.5; 0.75]%float.
Definition wide_X : @ndarray float := mkArray float32 [1; 3] [0.25; 0.5; 0.75]%float.

(** A world with these four arrays, no file and no instance, with and
    without a working compiler. *)
Definition sample_arrays : gmap nat (@ndarray float) :=
  <[0 := sample_X]> (<[1 := flat_X]> (<[2 := double_flat_X]> (<[3 := wide_X]> ∅))).

Definition world0 : @world float := mkWorld ∅ true ∅ sample_arrays [].

(** The predictor built from the depth-1 tree in [world0], and the world it
    is built in. *)
Definition built_stump : result nat * world := new_predictor stump_model world0.
Definition predictor1 : nat := fresh (dom (objects world0)).
Definition world1 : @world float := built_stump.2.
Definition stump_code : list (@fundef float) :=
  [TreeFn "evaluate" (IfLe 0 0.5%float (Return 1%float) (Return 2%float))].
Definition stump_evaluator : @evaluator float :=
  mkEvaluator stump_code
    (TreeFn "evaluate" (IfLe 0 0.5%float (Return 1%float) (Return 2%float))).
Definition instance1 : @instance float :=
  mkInstance (Some (PInt 1)) (Some stump_evaluator) (Some (fresh (dom (files world0)))).

(** A forest whose [n_estimators] was set to zero after fitting. *)
Definition zero_forest_model : @model float :=
  ForestRegressor "RandomForestRegressor" 1 0 [stump_model].

(** The state of [predictor1], and a state whose bytes are no module. *)
Definition stump_state : gmap string (@pyval float) :=
  <["n_features" := PInt 1]> (<["so_f" := PBytes (SharedObject stump_code)]> ∅).
Definition junk_state : gmap string (@pyval float) :=
  <["n_features" := PInt 7]> (<["so_f" := PBytes (OtherBytes "junk")]> ∅).

(** A tree of one leaf whose value, 0.1 as a double-precision number, is no
    single-precision number; the forest of two such trees. *)
Definition tenth_tree : list (@Node float) :=
  [ mkNode 0 0%float 0 0 0x1.999999999999ap-4%float true ].

Definition tenth_model : @model float :=
  DecisionTreeRegressor "DecisionTreeRegressor" (Some 1%Z) (Some 1%Z) 1 (Some tenth_tree).



Definition hollow_forest_model : @model float :=
  ForestRegressor "RandomForestRegressor" 1 1
    [ForestRegressor "RandomForestRegressor" 1 0 []].

(** [world1] with one more array, a matrix of no rows and one column. *)
Definition empty_X : @ndarray float := mkArray float32 [0; 1] [].
Definition world_empty_batch : @world float :=
  mkWorld (files world1) (compiler_ok world1) (objects world1)
    (<[4 := empty_X]> (arrays world1)) (log world1).

Section Properties.

Context {num : Type} `{Arith num} `{EntryPoint}.

Abbreviation Tree := (list (@Node num)).

Implicit Types (t : Tree) (nd : @Node num) (x : list num) (s : @stmt num).
Implicit Types (trees : list Tree) (fs code : list (@fundef num)) (fd : @fundef num).
Implicit Types (clf : @model num) (es : list (@model num)).
Implicit Types (w wr : @world num) (ev : @evaluator num).
Implicit Types (rs : list (list num)) (vs ys : list num).
Implicit Types (arr Xarr : @ndarray num) (inst ip iq : @instance num).
Implicit Types (state : gmap string (@pyval num)).
Implicit Types (ot : option Tree) (ots : list (option Tree)).

(** ** Properties of the generated code *)

(** The emitted conditionals follow the walk, node for node. *)
Lemma exec_code_gen_node fuel (t : Tree) i s x :
  code_gen_node fuel t i = Some s → exec_stmt s x = walk fuel t x i.
Proof.
  revert i s. induction fuel as [|fuel IH]; intros i s; simpl; [done|].
  destruct (t !! i) as [nd|]; simpl; [|done].
  destruct (is_leaf nd); [by intros [= <-]|].
  destruct (code_gen_node fuel t (left nd)) as [l|] eqn:Hl; simpl; [|done].
  destruct (code_gen_node fuel t (right nd)) as [r|] eqn:Hr; simpl; [|done].
  intros [= <-]; simpl.
  destruct (x !! feature nd) as [xv|]; simpl; [|done].
  destruct (num_le xv (threshold nd)); eauto.
Qed.

Lemma tree_ok_length nf (t : Tree) : tree_ok nf t = true → 0 < length t.
Proof.
  unfold tree_ok. intros [Hn _]%andb_true_iff. by apply bool_decide_eq_true in Hn.
Qed.

Lemma tree_ok_node nf (t : Tree) i nd :
  tree_ok nf t = true → t !! i = Some nd → is_leaf nd = false →
  i < left nd < length t ∧ i < right nd < length t ∧ feature nd < nf.
Proof.
  unfold tree_ok. intros [_ Hall]%andb_true_iff Hi Hleaf.
  rewrite forallb_forall in Hall.
  specialize (Hall (i, nd)). unfold node_ok in Hall; simpl in Hall.
  rewrite Hleaf in Hall; simpl in Hall.
  assert (Hin : In (i, nd) (imap pair t)).
  { apply list_elem_of_In, list_elem_of_lookup. exists i.
    rewrite list_lookup_imap, Hi. done. }
  apply Hall in Hin.
  apply andb_true_iff in Hin as [[H1 H2]%andb_true_iff H3].
  apply bool_decide_eq_true in H1, H2, H3. done.
Qed.

(** On a well-formed tree the emitter needs no more recursion depth than the
    tree has nodes. *)
Lemma code_gen_node_total nf (t : Tree) fuel i :
  tree_ok nf t = true → i < length t → length t - i ≤ fuel →
  is_Some (code_gen_node fuel t i).
Proof.
  intros Hok. revert i. induction fuel as [|fuel IH]; intros i Hi Hfuel; [lia|].
  simpl. destruct (lookup_lt_is_Some_2 t i Hi) as [nd Hnd]. rewrite Hnd; simpl.
  destruct (is_leaf nd) eqn:Hleaf; [by eexists|].
  destruct (tree_ok_node _ _ _ _ Hok Hnd Hleaf) as (Hl & Hr & _).
  destruct (IH (left nd)) as [l ->]; [lia..|].
  destruct (IH (right nd)) as [r ->]; [lia..|].
  simpl. by eexists.
Qed.

(** ... and the walk reaches a leaf on every vector of [nf] features. *)
Lemma walk_total nf (t : Tree) x fuel i :
  tree_ok nf t = true → length x = nf → i < length t → length t - i ≤ fuel →
  is_Some (walk fuel t x i).
Proof.
  intros Hok Hx. revert i. induction fuel as [|fuel IH]; intros i Hi Hfuel; [lia|].
  simpl. destruct (lookup_lt_is_Some_2 t i Hi) as [nd Hnd]. rewrite Hnd; simpl.
  destruct (is_leaf nd) eqn:Hleaf; [by eexists|].
  destruct (tree_ok_node _ _ _ _ Hok Hnd Hleaf) as (Hl & Hr & Hf).
  destruct (lookup_lt_is_Some_2 x (feature nd)) as [xv ->]; [lia|]. simpl.
  destruct (num_le xv (threshold nd)); apply IH; lia.
Qed.

Lemma tree_predict_total nf (t : Tree) x :
  tree_ok nf t = true → length x = nf → is_Some (tree_predict t x).
Proof.
  intros Hok Hx. pose proof (tree_ok_length _ _ Hok).
  eapply walk_total; eauto; lia.
Qed.

Lemma code_gen_tree_total nf (t : Tree) :
  tree_ok nf t = true →
  ∃ body, code_gen_node (length t) t 0 = Some body
          ∧ code_gen_tree t = Some [TreeFn EVALUATE_FN_NAME body].
Proof.
  intros Hok. pose proof (tree_ok_length _ _ Hok).
  destruct (code_gen_node_total nf t (length t) 0) as [body Hb]; [done|lia..|].
  exists body. unfold code_gen_tree. by rewrite Hb.
Qed.

(** *** Names of the generated functions *)

Lemma tree_fn_name_inj i j : tree_fn_name i = tree_fn_name j → i = j.
Proof.
  unfold tree_fn_name. intros Heq.
  apply (inj (String.app EVALUATE_FN_NAME)) in Heq.
  apply (inj (String.app "_")) in Heq.
  by apply (inj pretty) in Heq.
Qed.

Lemma string_length_app (s1 s2 : string) :
  String.length (s1 +:+ s2) = String.length s1 + String.length s2.
Proof. induction s1 as [|a s1 IH]; simpl; [done|]. by rewrite IH. Qed.

Lemma tree_fn_name_not_entry i : tree_fn_name i ≠ EVALUATE_FN_NAME.
Proof.
  unfold tree_fn_name. intros Heq.
  apply (f_equal String.length) in Heq.
  rewrite !string_length_app in Heq. simpl in Heq. lia.
Qed.

Lemma code_gen_trees_total nf k (trees : list Tree) :
  Forall (λ t, tree_ok nf t = true) trees → is_Some (code_gen_trees k trees).
Proof.
  intros Hall. revert k. induction Hall as [|t ts Ht _ IH]; intros k; simpl.
  - by eexists.
  - destruct (code_gen_tree_total _ _ Ht) as (body & -> & _). simpl.
    destruct (IH (S k)) as [fs ->]. simpl. by eexists.
Qed.

(** The function of the [j]-th tree resolves to the code emitted for that
    tree, whatever follows the tree functions in the module. *)
Lemma find_symbol_code_gen_trees k (trees : list Tree) fs rest j t :
  code_gen_trees k trees = Some fs → trees !! j = Some t →
  ∃ body, code_gen_node (length t) t 0 = Some body
          ∧ find_symbol (fs ++ rest) (tree_fn_name (k + j))
            = Some (TreeFn (tree_fn_name (k + j)) body).
Proof.
  revert k fs j. induction trees as [|t0 ts IH]; intros k fs j; simpl; [done|].
  destruct (code_gen_node (length t0) t0 0) as [b0|] eqn:Hb0; simpl; [|done].
  destruct (code_gen_trees (S k) ts) as [fs'|] eqn:Hfs; simpl; [|done].
  intros [= <-] Hj. destruct j as [|j]; simpl in Hj.
  - injection Hj as <-. exists b0. split; [done|]. simpl.
    rewrite Nat.add_0_r. by rewrite decide_True.
  - destruct (IH (S k) fs' j Hfs Hj) as (body & Hbody & Hfind).
    exists body. split; [done|]. simpl.
    rewrite decide_False; [|intros Heq%tree_fn_name_inj; lia].
    by replace (k + S j) with (S k + j) by lia.
Qed.

Lemma find_symbol_entry k (trees : list Tree) fs fd :
  code_gen_trees k trees = Some fs → fn_name fd = EVALUATE_FN_NAME →
  find_symbol (fs ++ [fd]) EVALUATE_FN_NAME = Some fd.
Proof.
  intros Hfs Hfd. revert k fs Hfs.
  induction trees as [|t0 ts IH]; intros k fs; simpl.
  - intros [= <-]. simpl. by rewrite decide_True.
  - destruct (code_gen_node (length t0) t0 0) as [b0|]; simpl; [|done].
    destruct (code_gen_trees (S k) ts) as [fs'|] eqn:Hfs'; simpl; [|done].
    intros [= <-]. simpl.
    rewrite decide_False; [|apply tree_fn_name_not_entry]. eauto.
Qed.

Lemma mapM_seq_ext {A B C} (f : C → option B) (g : nat → C) (h : A → option B)
    (l : list A) k :
  (∀ j a, l !! j = Some a → f (g (k + j)) = h a) →
  mapM f (g <$> seq k (length l)) = mapM h l.
Proof.
  revert k. induction l as [|a l IH]; intros k Hf; [done|].
  cbn [length seq]. rewrite fmap_cons.
  change (mapM f (g k :: (g <$> seq (S k) (length l))))
    with (y ← f (g k); r ← mapM f (g <$> seq (S k) (length l)); mret (y :: r)).
  change (mapM h (a :: l)) with (y ← h a; r ← mapM h l; mret (y :: r)).
  rewrite <-(Hf 0 a eq_refl), Nat.add_0_r.
  rewrite (IH (S k)); [done|].
  intros j b Hj. rewrite <-(Hf (S j) b Hj). do 2 f_equal. lia.
Qed.

(** The top-level function of an ensemble computes
    [initial_value + weight * sum(tree_i(x))] over the walks of its trees. *)
Lemma call_code_gen_ensemble (trees : list Tree) wt init code x :
  code_gen_ensemble trees wt init = Some code →
  ∃ fd, find_symbol code EVALUATE_FN_NAME = Some fd
        ∧ call_fundef code fd x
          = (vs ← mapM (λ t, tree_predict t x) trees;
             Some (num_add init (num_mul wt (num_sum vs)))).
Proof.
  unfold code_gen_ensemble.
  destruct (code_gen_trees 0 trees) as [fs|] eqn:Hfs; simpl; [|done].
  intros [= <-]. eexists. split; [by eapply find_symbol_entry|].
  simpl. f_equal.
  apply mapM_seq_ext.
  intros j t Hj. simpl.
  destruct (find_symbol_code_gen_trees 0 trees fs
              [EnsembleFn EVALUATE_FN_NAME init wt (tree_fn_name <$> seq 0 (length trees))]
              j t Hfs Hj) as (body & Hbody & Hfind).
  simpl in Hfind. unfold call_tree. rewrite Hfind. simpl.
  by apply exec_code_gen_node.
Qed.

(** ** Running the facade *)

Lemma bind_ok {A B} (m : M A) (k : A → M B) w a w' :
  m w = (Ok a, w') → bind m k w = k a w'.
Proof. unfold bind. by intros ->. Qed.

Lemma mapM_id_Some {A} (l : list A) : mapM id (Some <$> l) = Some l.
Proof. apply mapM_Some_2. induction l; constructor; auto. Qed.

(** The members of a fitted ensemble are trees: the comprehension
    [[e.tree_ for e in ...]] collects them without raising. *)
Lemma members_ok_trees nf es :
  forallb (member_ok nf) es = true →
  ∃ trees : list Tree,
    member_tree <$> es = Some <$> trees
    ∧ Forall (λ t, tree_ok nf t = true) trees
    ∧ (∀ x, mapM (member_predict x) es = mapM (λ t, tree_predict t x) trees)
    ∧ (∀ w, for_each tree_attr es w = (Ok (Some <$> trees), w)).
Proof.
  induction es as [|e es IH].
  - intros _. exists []. by repeat split.
  - cbn [forallb]. intros [He Hes]%andb_true_iff.
    destruct (IH Hes) as (trees & Hm & Hok & Hp & Hf).
    destruct e as [c no nc nf' [t|]| | | |]; simpl in He; try done.
    exists (t :: trees). split; [by rewrite !fmap_cons, Hm|].
    split; [by constructor|]. split.
    + intros x. specialize (Hp x).
      change (mapM (member_predict x) (DecisionTreeRegressor c no nc nf' (Some t) :: es))
        with (y ← tree_predict t x; r ← mapM (member_predict x) es; mret (y :: r)).
      by rewrite Hp.
    + intros w. cbn [for_each tree_attr].
      rewrite (bind_ok _ _ w (Some t) w) by done.
      by rewrite (bind_ok _ _ w _ w (Hf w)).
Qed.

(** The first half of [_build] on a fitted, compilable model: one call to the
    code generator, whose source evaluates a row as the model does. *)
Lemma _build_front clf w :
  truthy (compilable clf) = true → fitted_ok clf = true →
  ∃ code fd,
    find_symbol code EVALUATE_FN_NAME = Some fd
    ∧ (∀ x, call_fundef code fd x = model_predict clf x)
    ∧ (∀ cls no nc nf t, clf = DecisionTreeRegressor cls no nc nf (Some t) →
         ∃ body, code = [TreeFn EVALUATE_FN_NAME body])
    ∧ _build clf w =
        compile_and_load (model_n_features clf) code
          (mkWorld (files w) (compiler_ok w) (objects w) (arrays w)
             (log w ++ [code_gen_call clf])).
Proof.
  intros Hc Hok. unfold _build. rewrite Hc. change (negb true) with false. cbv iota.
  destruct clf as [c no nc nf [t|]|c nf lr prior es|c nf n es|c items|c]; simpl in Hok; try done.
  - destruct (code_gen_tree_total _ _ Hok) as (body & Hbody & Hlines).
    exists [TreeFn EVALUATE_FN_NAME body], (TreeFn EVALUATE_FN_NAME body).
    split; [simpl; by rewrite decide_True|].
    split; [intros x; simpl; by apply exec_code_gen_node|].
    split; [by eexists|].
    unfold bind, cg_code_gen_tree, bind, emit, ret; simpl.
    by rewrite Hlines.
  - destruct (members_ok_trees _ _ Hok) as (trees & Hm & Htrees & Hp & Hf).
    destruct (code_gen_trees_total nf 0 trees Htrees) as [fs' Hfs'].
    assert (Hcode : code_gen_ensemble trees lr prior
                    = Some (fs' ++ [EnsembleFn EVALUATE_FN_NAME prior lr
                                      (tree_fn_name <$> seq 0 (length trees))])).
    { unfold code_gen_ensemble. by rewrite Hfs'. }
    destruct (call_code_gen_ensemble _ _ _ _ [] Hcode) as (fd & Hfd & _).
    eexists _, fd. split; [exact Hfd|]. split.
    { intros x. destruct (call_code_gen_ensemble _ _ _ _ x Hcode) as (fd' & Hfd' & Hcall).
      assert (fd' = fd) as -> by congruence. simpl. by rewrite Hp. }
    split; [done|].
    unfold bind, cg_code_gen_ensemble, bind, emit, ret; simpl.
    rewrite Hf; simpl. rewrite mapM_id_Some; simpl. rewrite Hcode; simpl.
    by rewrite Hm.
  - apply andb_true_iff in Hok as [Hok Hn]. apply negb_true_iff in Hn.
    destruct (members_ok_trees _ _ Hok) as (trees & Hm & Htrees & Hp & Hf).
    destruct (code_gen_trees_total nf 0 trees Htrees) as [fs' Hfs'].
    set (wt := num_div num_one (num_of_int n)).
    assert (Hcode : code_gen_ensemble trees wt num_zero
                    = Some (fs' ++ [EnsembleFn EVALUATE_FN_NAME num_zero wt
                                      (tree_fn_name <$> seq 0 (length trees))])).
    { unfold code_gen_ensemble. by rewrite Hfs'. }
    destruct (call_code_gen_ensemble _ _ _ _ [] Hcode) as (fd & Hfd & _).
    eexists _, fd. split; [exact Hfd|]. split.
    { intros x. destruct (call_code_gen_ensemble _ _ _ _ x Hcode) as (fd' & Hfd' & Hcall).
      assert (fd' = fd) as -> by congruence. simpl. by rewrite Hp. }
    split; [done|].
    unfold bind, cg_code_gen_ensemble, one_over, bind, emit, ret; simpl.
    rewrite Hf; simpl. rewrite Hn; simpl. rewrite mapM_id_Some; simpl.
    fold wt. rewrite Hcode; simpl.
    by rewrite Hm.
Qed.

(** With the compiler at hand, the second half stores the module at a fresh
    path and resolves the entry point from it. *)
Lemma compile_and_load_ok nf code fd w :
  compiler_ok w = true → find_symbol code EVALUATE_FN_NAME = Some fd →
  compile_and_load nf code w =
    (Ok (PInt (Z.of_nat nf), mkEvaluator code fd, fresh (dom (files w))),
     mkWorld (<[fresh (dom (files w)) := SharedObject code]> (files w)) true
       (objects w) (arrays w)
       (log w ++ [EvCompile code; EvLoad (fresh (dom (files w))) EVALUATE_FN_NAME])).
Proof.
  intros Hcc Hfd. destruct w as [fs cok objs arrs lg]; simpl in Hcc; subst cok.
  unfold compile_and_load, bind, compile_code_to_object, CompiledPredictor,
    bind, emit, ret; simpl.
  rewrite lookup_insert_eq; simpl. rewrite Hfd. by rewrite <-!app_assoc.
Qed.


Lemma _build_spec clf w :
  truthy (compilable clf) = true → fitted_ok clf = true → compiler_ok w = true →
  ∃ code fd,
    find_symbol code EVALUATE_FN_NAME = Some fd
    ∧ (∀ x, call_fundef code fd x = model_predict clf x)
    ∧ _build clf w =
        (Ok (PInt (Z.of_nat (model_n_features clf)), mkEvaluator code fd,
             fresh (dom (files w))),
         mkWorld (<[fresh (dom (files w)) := SharedObject code]> (files w)) true
           (objects w) (arrays w)
           (log w ++ [code_gen_call clf; EvCompile code;
                      EvLoad (fresh (dom (files w))) EVALUATE_FN_NAME])).
Proof.
  intros Hc Hok Hcc.
  destruct (_build_front clf w Hc Hok) as (code & fd & Hfd & Hcall & _ & ->).
  exists code, fd. split; [done|]. split; [done|].
  rewrite (compile_and_load_ok _ _ fd) by done. simpl.
  by rewrite <-!app_assoc.
Qed.

(** Construction of a predictor from a fitted, compilable model, with the
    compiler at hand: the world it leaves behind. *)
Lemma new_predictor_spec clf w :
  truthy (compilable clf) = true → fitted_ok clf = true → compiler_ok w = true →
  ∃ code fd,
    find_symbol code EVALUATE_FN_NAME = Some fd
    ∧ (∀ x, call_fundef code fd x = model_predict clf x)
    ∧ new_predictor clf w =
        (Ok (fresh (dom (objects w))),
         mkWorld (<[fresh (dom (files w)) := SharedObject code]> (files w)) true
           (<[fresh (dom (objects w)) :=
                mkInstance (Some (PInt (Z.of_nat (model_n_features clf))))
                  (Some (mkEvaluator code fd)) (Some (fresh (dom (files w))))]>
              (objects w))
           (arrays w)
           (log w ++ [code_gen_call clf; EvCompile code;
                      EvLoad (fresh (dom (files w))) EVALUATE_FN_NAME])).
Proof.
  intros Hc Hok Hcc.
  set (w1 := mkWorld (files w) (compiler_ok w)
               (<[fresh (dom (objects w)) := empty_instance]> (objects w))
               (arrays w) (log w)).
  destruct (_build_spec clf w1 Hc Hok Hcc) as (code & fd & Hfd & Hcall & Hb).
  exists code, fd. split; [done|]. split; [done|].
  unfold new_predictor, __init__, bind, new_instance. fold w1. rewrite Hb.
  unfold setattr, ret; simpl.
  by rewrite !alter_insert_eq.
Qed.

(** *** The batch loop *)

Lemma rows_length n nf (data : list num) : length (rows n nf data) = n.
Proof. unfold rows. by rewrite length_fmap, length_seq. Qed.

Lemma rows_row_length n nf (data : list num) r :
  length data = n * nf → r ∈ rows n nf data → length r = nf.
Proof.
  intros Hlen. unfold rows. intros (i & -> & Hi)%list_elem_of_fmap.
  apply elem_of_seq in Hi. unfold row.
  rewrite length_take, length_drop, Hlen.
  assert (∃ k, n = i + S k) as [k ->] by (exists (n - i - 1); lia).
  rewrite Nat.mul_add_distr_r. simpl.
  generalize (i * nf) (k * nf). intros a b. lia.
Qed.

(** When every native call returns, the loop writes the results, narrowed
    to the element type of the output buffer, over its cells [i], [i+1], ...
    and logs one call per row. *)
Lemma predict_rows_ok ev rs vs i out w arr :
  Forall2 (λ r v, call_fundef (ev_module ev) (ev_entry ev) r = Some v) rs vs →
  arrays w !! out = Some arr →
  i + length rs ≤ length (arr_data arr) →
  predict_rows ev rs i out w =
    (Ok tt,
     mkWorld (files w) (compiler_ok w) (objects w)
       (<[out := mkArray (arr_dtype arr) (arr_shape arr)
                   (take i (arr_data arr) ++ (as_dtype (arr_dtype arr) <$> vs)
                    ++ drop (i + length rs) (arr_data arr))]>
          (arrays w))
       (log w ++ (EvNativeCall <$> rs))).
Proof.
  intros HF. revert i w arr.
  induction HF as [|r v rs vs Hr _ IH]; intros i w arr Hout Hlen.
  - simpl. unfold ret. destruct w as [fs cok objs arrs lg], arr as [d sh dat].
    simpl in *. rewrite Nat.add_0_r, take_drop, app_nil_r.
    by rewrite insert_id.
  - cbn [predict_rows length] in *. unfold bind at 1. unfold emit at 1.
    rewrite Hr. unfold bind at 1. unfold store at 1.
    erewrite IH; cycle 1.
    { simpl. rewrite lookup_alter_eq, Hout. done. }
    { simpl. rewrite length_insert. lia. }
    simpl. rewrite insert_alter_eq. rewrite <-app_assoc. simpl.
    do 3 f_equal.
    rewrite (take_S_r _ _ (as_dtype (arr_dtype arr) v)); cycle 1.
    { apply list_lookup_insert_eq. lia. }
    rewrite take_insert_ge by lia.
    rewrite drop_insert_lt by lia.
    rewrite <-app_assoc. simpl.
    by replace (S (i + length rs)) with (i + S (length rs)) by lia.
Qed.

(** Whatever the native calls do, the loop touches nothing but the content of
    the output buffer and the log, and fails only by a native fault. *)
Lemma predict_rows_frame ev rs i out w r w' :
  predict_rows ev rs i out w = (r, w') →
  files w' = files w ∧ compiler_ok w' = compiler_ok w ∧ objects w' = objects w
  ∧ (∀ a, a ≠ out → arrays w' !! a = arrays w !! a)
  ∧ (∀ arr, arrays w !! out = Some arr →
       ∃ data, arrays w' !! out = Some (mkArray (arr_dtype arr) (arr_shape arr) data)
               ∧ length data = length (arr_data arr))
  ∧ (r = Ok tt ∨ r = Raise NativeFault)
  ∧ (r = Ok tt →
       ∃ vs, Forall2 (λ x v, call_fundef (ev_module ev) (ev_entry ev) x = Some v) rs vs).
Proof.
  revert i w. induction rs as [|x rs IH]; intros i w.
  - simpl. unfold ret. intros [= <- <-]. repeat split; auto.
    + intros [d sh dat] ->. by exists dat.
    + intros _. exists []. constructor.
  - cbn [predict_rows]. unfold bind at 1. unfold emit at 1.
    destruct (call_fundef (ev_module ev) (ev_entry ev) x) as [v|] eqn:Hx.
    + unfold bind at 1. unfold store at 1. intros Hrun.
      apply IH in Hrun as (Hf & Hc & Ho & Ha & Hout & Hr & Hvs). simpl in *.
      repeat split; auto.
      * intros a Hne. by rewrite Ha, lookup_alter_ne.
      * intros arr Harr. destruct (Hout (mkArray (arr_dtype arr) (arr_shape arr)
                                           (<[i := as_dtype (arr_dtype arr) v]> (arr_data arr))))
          as (data & Hd & Hl).
        { by rewrite lookup_alter_eq, Harr. }
        exists data. split; [done|]. simpl in Hl. by rewrite length_insert in Hl.
      * intros Hok. destruct (Hvs Hok) as [vs HF]. exists (v :: vs). by constructor.
    + unfold raise. intros [= <- <-]. simpl. repeat split; auto.
      * intros [d sh dat] ->. by exists dat.
      * done.
Qed.

(** [predict] on an input that passes the three checks: the output buffer is
    allocated, then the batch loop runs on it. *)
Lemma predict_valid w self X Xarr n nf ev inst :
  objects w !! self = Some inst →
  _n_features inst = Some (PInt (Z.of_nat nf)) → _evaluator inst = Some ev →
  arrays w !! X = Some Xarr →
  arr_dtype Xarr = DTYPE → arr_shape Xarr = [n; nf] →
  predict self X w =
    let out := fresh (dom (arrays w)) in
    match predict_rows ev (rows n nf (arr_data Xarr)) 0 out
            (mkWorld (files w) (compiler_ok w) (objects w)
               (<[out := mkArray DTYPE [n] (replicate n num_zero)]> (arrays w)) (log w))
    with
    | (Ok _, w') => (Ok out, w')
    | (Raise e, w') => (Raise e, w')
    end.
Proof.
  intros Hself Hnf Hev HX Hd Hsh.
  assert (Hne : fresh (dom (arrays w)) ≠ X).
  { intros Heq. apply (is_fresh (dom (arrays w))). rewrite Heq.
    apply elem_of_dom. by eexists. }
  unfold predict. rewrite (bind_ok _ _ w Xarr w); [|unfold get_array; by rewrite HX].
  rewrite Hd, Hsh. rewrite bool_decide_eq_false_2 by (intros Hc; by apply Hc).
  rewrite bool_decide_eq_false_2 by (intros Hc; by apply Hc).
  rewrite (bind_ok _ _ w (PInt (Z.of_nat nf)) w);
    [|unfold getattr; by rewrite Hself; simpl; rewrite Hnf].
  unfold py_eq_int. rewrite Z.eqb_refl. change (negb true) with false. cbv iota.
  unfold bind at 1. unfold np_empty at 1.
  unfold bind at 1. unfold getattr at 1. simpl objects. rewrite Hself. simpl.
  rewrite Hev.
  unfold evaluator_predict. unfold bind at 1. unfold get_array at 1. simpl arrays.
  rewrite lookup_insert_ne by done. rewrite HX, Hsh.
  unfold bind at 1. unfold ret.
  by destruct (predict_rows _ _ _ _ _) as [[[]|e] w'].
Qed.

(** A call of [predict] on a predictor and a valid input whose rows the
    native function evaluates: the result is a new array holding one value
    per row, in single precision. *)
Lemma predict_ok w self X Xarr n nf ev inst vs :
  objects w !! self = Some inst →
  _n_features inst = Some (PInt (Z.of_nat nf)) → _evaluator inst = Some ev →
  arrays w !! X = Some Xarr →
  valid_input nf Xarr n →
  Forall2 (λ r v, call_fundef (ev_module ev) (ev_entry ev) r = Some v)
    (rows n nf (arr_data Xarr)) vs →
  predict self X w =
    (Ok (fresh (dom (arrays w))),
     mkWorld (files w) (compiler_ok w) (objects w)
       (<[fresh (dom (arrays w)) := mkArray DTYPE [n] (num_float32 <$> vs)]> (arrays w))
       (log w ++ (EvNativeCall <$> rows n nf (arr_data Xarr)))).
Proof.
  intros Hself Hnf Hev HX (Hd & Hsh & Hlen) Hvs.
  erewrite predict_valid by done. cbv zeta.
  erewrite predict_rows_ok; [| exact Hvs | simpl; apply lookup_insert_eq | ].
  - simpl. rewrite insert_insert_eq.
    rewrite rows_length, drop_ge by (rewrite length_replicate; lia).
    by rewrite app_nil_r.
  - simpl. rewrite rows_length, length_replicate. lia.
Qed.

(** *** Build, then predict *)

Lemma member_predict_total nf es x :
  forallb (member_ok nf) es = true → length x = nf →
  is_Some (mapM (member_predict x) es).
Proof.
  intros Hes Hx. apply mapM_is_Some_2, Forall_forall. intros e He.
  rewrite forallb_forall in Hes. apply list_elem_of_In, Hes in He.
  destruct e as [c no nc nf' [t|]| | | |]; simpl in He; try done.
  simpl. by eapply tree_predict_total.
Qed.

Lemma model_predict_total clf x :
  fitted_ok clf = true → length x = model_n_features clf →
  is_Some (model_predict clf x).
Proof.
  destruct clf as [c no nc nf [t|]|c nf lr prior es|c nf n es|c items|c]; simpl; try done.
  - apply tree_predict_total.
  - intros Hes Hx. destruct (member_predict_total _ _ _ Hes Hx) as [vs ->].
    simpl. by eexists.
  - intros [Hes _]%andb_true_iff Hx.
    destruct (member_predict_total _ _ _ Hes Hx) as [vs ->].
    simpl. by eexists.
Qed.

(** A predictor built from a fitted model answers every valid input with the
    predictions of the model, row by row, in single precision; its evaluator
    computes the prediction of the model on every vector. *)
Lemma build_then_predict clf w X Xarr n :
  truthy (compilable clf) = true → fitted_ok clf = true → compiler_ok w = true →
  arrays w !! X = Some Xarr → valid_input (model_n_features clf) Xarr n →
  ∃ self w1 y w2 ys ev,
    new_predictor clf w = (Ok self, w1)
    ∧ ready w1 self
    ∧ objects w1 !! self ≫= _evaluator = Some ev
    ∧ (∀ x, call_fundef (ev_module ev) (ev_entry ev) x = model_predict clf x)
    ∧ predict self X w1 = (Ok y, w2)
    ∧ arrays w2 !! y = Some (mkArray DTYPE [n] (num_float32 <$> ys))
    ∧ Forall2 (λ r v, model_predict clf r = Some v)
        (rows n (model_n_features clf) (arr_data Xarr)) ys.
Proof.
  intros Hc Hok Hcc HX Hvalid.
  destruct (new_predictor_spec clf w Hc Hok Hcc) as (code & fd & Hfd & Hcall & Hnew).
  assert (Hys : ∃ ys, Forall2 (λ r v, model_predict clf r = Some v)
                        (rows n (model_n_features clf) (arr_data Xarr)) ys).
  { destruct (mapM_is_Some_2 (model_predict clf)
                (rows n (model_n_features clf) (arr_data Xarr))) as [ys Hys].
    - apply Forall_forall. intros r Hr. apply model_predict_total; [done|].
      destruct Hvalid as (_ & _ & Hlen). by eapply rows_row_length.
    - exists ys. by apply mapM_Some_1. }
  destruct Hys as [ys Hys].
  eexists _, _, _, _, ys, (mkEvaluator code fd). split; [exact Hnew|]. split.
  { exists (model_n_features clf), code, fd, (fresh (dom (files w))). simpl.
    by rewrite !lookup_insert_eq. }
  split; [simpl; by rewrite lookup_insert_eq|]. split; [done|].
  split; [|split; [|exact Hys]].
  - eapply predict_ok; simpl; [apply lookup_insert_eq|done|done|exact HX|exact Hvalid|].
    eapply Forall2_impl; [exact Hys|]. intros r v Hr. simpl. by rewrite Hcall.
  - simpl. apply lookup_insert_eq.
Qed.


(** ** Properties of the facade *)

(** C1, amended: for every compilable single decision tree (fitted: its node
    arrays satisfy the structural invariant) and with the compiler at hand,
    the predictor is built and its evaluator returns on every feature vector
    what the recursive walk of the tree returns (left when
    [x[feature] <= threshold], right otherwise, the value of the leaf
    reached); [predict] on a valid input returns, row by row, the result of
    the walk rounded to the element type of its output array, single
    precision. *)
Theorem C1_single_tree_prediction_is_narrowed_walk cls no nc nf (t : Tree) w X Xarr n :
  truthy (compilable (DecisionTreeRegressor cls no nc nf (Some t))) = true →
  tree_ok nf t = true →
  compiler_ok w = true →
  arrays w !! X = Some Xarr →
  valid_input nf Xarr n →
  ∃ self w1 y w2 vs ev,
    new_predictor (DecisionTreeRegressor cls no nc nf (Some t)) w = (Ok self, w1)
    ∧ objects w1 !! self ≫= _evaluator = Some ev
    ∧ (∀ x, call_fundef (ev_module ev) (ev_entry ev) x = walk (length t) t x 0)
    ∧ predict self X w1 = (Ok y, w2)
    ∧ arrays w2 !! y = Some (mkArray DTYPE [n] (num_float32 <$> vs))
    ∧ Forall2 (λ x v, walk (length t) t x 0 = Some v) (rows n nf (arr_data Xarr)) vs.
Proof.
  intros Hc Hok Hcc HX Hvalid.
  destruct (build_then_predict _ w X Xarr n Hc Hok Hcc HX Hvalid)
    as (self & w1 & y & w2 & ys & ev & Hnew & _ & Hev & Hcall & Hp & Hy & Hys).
  exists self, w1, y, w2, ys, ev. repeat split; done.
Qed.




(** *** Failures and frame of [_build] *)




Lemma build_frame_refl w : build_frame w w.
Proof. by repeat split. Qed.

Lemma build_frame_trans w1 w2 w3 :
  build_frame w1 w2 → build_frame w2 w3 → build_frame w1 w3.
Proof.
  intros (Hc1 & Ho1 & Ha1 & Hf1 & Hl1) (Hc2 & Ho2 & Ha2 & Hf2 & Hl2).
  repeat split; try congruence; by etrans.
Qed.

Lemma keeps_ret {A} (a : A) : keeps (@build_frame num) (ret a).
Proof. intros w. apply build_frame_refl. Qed.

Lemma keeps_raise {A} e : keeps (@build_frame num) (@raise num A e).
Proof. intros w. apply build_frame_refl. Qed.

Lemma keeps_bind {A B} (m : M A) (k : A → M B) :
  keeps (@build_frame num) m → (∀ a, keeps (@build_frame num) (k a)) → keeps (@build_frame num) (bind m k).
Proof.
  intros Hm Hk w. unfold bind. specialize (Hm w).
  destruct (m w) as [[a|e'] w']; simpl in *; [|done].
  eapply build_frame_trans; [exact Hm|apply Hk].
Qed.

Lemma keeps_emit (call : @event num) : keeps (@build_frame num) (emit call).
Proof.
  intros w. unfold emit. simpl. repeat split; try done.
  by apply prefix_app_r.
Qed.

(** The comprehension [[e.tree_ for e in ...]]: it collects the [tree_] of
    the members when they are all tree regressors, raises [AttributeError]
    otherwise, and leaves the world alone. *)
Lemma for_each_tree_attr es w :
  for_each tree_attr es w
  = if forallb is_tree_regressor es then (Ok (member_tree <$> es), w)
    else (Raise (AttributeError "tree_"), w).
Proof.
  induction es as [|e es IH]; [done|].
  cbn [for_each forallb]. unfold bind at 1.
  destruct e as [c no nc nf ot| | | |]; simpl; try done.
  unfold bind. rewrite IH. by destruct (forallb is_tree_regressor es).
Qed.


Lemma for_each_tree_attr_keeps es : keeps (@build_frame num) (for_each tree_attr es).
Proof.
  intros w. rewrite for_each_tree_attr.
  destruct (forallb is_tree_regressor es); apply build_frame_refl.
Qed.


Lemma cg_code_gen_tree_keeps ot : keeps (@build_frame num) (cg_code_gen_tree ot).
Proof.
  unfold cg_code_gen_tree. apply keeps_bind; [apply keeps_emit|]. intros _.
  destruct (ot ≫= code_gen_tree); [apply keeps_ret|apply keeps_raise].
Qed.


Lemma cg_code_gen_ensemble_keeps ots wt init :
  keeps (@build_frame num) (cg_code_gen_ensemble ots wt init).
Proof.
  unfold cg_code_gen_ensemble. apply keeps_bind; [apply keeps_emit|]. intros _.
  destruct (mapM id ots ≫= _); [apply keeps_ret|apply keeps_raise].
Qed.


Lemma one_over_keeps n : keeps (@build_frame num) (one_over n).
Proof. unfold one_over. destruct (n =? 0)%Z; [apply keeps_raise|apply keeps_ret]. Qed.


Lemma compile_and_load_keeps nf code : keeps (@build_frame num) (compile_and_load nf code).
Proof.
  intros w. unfold compile_and_load, bind, compile_code_to_object, bind, emit,
    CompiledPredictor, bind, emit, ret. simpl.
  destruct (compiler_ok w) eqn:Hcc; simpl.
  - rewrite lookup_insert_eq.
    assert (Hsub : files w ⊆ <[fresh (dom (files w)) := SharedObject code]> (files w)).
    { apply insert_subseteq, not_elem_of_dom, is_fresh. }
    destruct (find_symbol code EVALUATE_FN_NAME); simpl;
      (repeat split; [done..|]); rewrite <-app_assoc; by apply prefix_app_r.
  - repeat split; try done. by apply prefix_app_r.
Qed.

(** [_build] past its validation, block by block. *)
Lemma _build_unfold clf w :
  truthy (compilable clf) = true →
  _build clf w
  = match clf with
    | DecisionTreeRegressor _ _ _ nf ot =>
        bind (cg_code_gen_tree ot) (compile_and_load nf) w
    | GradientBoostingRegressor _ nf lr prior es =>
        bind (for_each tree_attr es)
          (λ ots, bind (cg_code_gen_ensemble ots lr prior) (compile_and_load nf)) w
    | ForestRegressor _ nf n es =>
        bind (for_each tree_attr es)
          (λ ots, bind (one_over n)
             (λ wt, bind (cg_code_gen_ensemble ots wt num_zero) (compile_and_load nf))) w
    | _ => (Raise AssertionError, w)
    end.
Proof.
  intros Hc. unfold _build. rewrite Hc. change (negb true) with false. cbv iota.
  destruct clf as [c no nc nf ot|c nf lr prior es|c nf n es|c items|c].
  - unfold compile_and_load, bind, ret. cbv beta iota.
    destruct (cg_code_gen_tree ot w) as [[lines|e] w']; reflexivity.
  - unfold compile_and_load, bind, ret. cbv beta iota.
    destruct (for_each tree_attr es w) as [[ots|e] w']; [|reflexivity].
    destruct (cg_code_gen_ensemble ots lr prior w') as [[lines|e] w'']; reflexivity.
  - unfold compile_and_load, bind, ret. cbv beta iota.
    destruct (for_each tree_attr es w) as [[ots|e] w']; [|reflexivity].
    destruct (one_over n w') as [[wt|e] w'']; [|reflexivity].
    destruct (cg_code_gen_ensemble ots wt num_zero w'') as [[lines|e] w3]; reflexivity.
  - reflexivity.
  - reflexivity.
Qed.

Lemma _build_keeps clf : keeps (@build_frame num) (_build clf).
Proof.
  intros w. destruct (truthy (compilable clf)) eqn:Hc.
  - rewrite _build_unfold by done.
    destruct clf as [c no nc nf ot|c nf lr prior es|c nf n es|c items|c].
    + apply keeps_bind; [apply cg_code_gen_tree_keeps|].
      intros lines. apply compile_and_load_keeps.
    + apply keeps_bind; [apply for_each_tree_attr_keeps|]. intros ots.
      apply keeps_bind; [apply cg_code_gen_ensemble_keeps|].
      intros lines. apply compile_and_load_keeps.
    + apply keeps_bind; [apply for_each_tree_attr_keeps|]. intros ots.
      apply keeps_bind; [apply one_over_keeps|]. intros wt.
      apply keeps_bind; [apply cg_code_gen_ensemble_keeps|].
      intros lines. apply compile_and_load_keeps.
    + apply build_frame_refl.
    + apply build_frame_refl.
  - unfold _build. rewrite Hc. apply build_frame_refl.
Qed.





(** *** [compilable] *)

Lemma forallb_ext_in {A} (f g : A → bool) (l : list A) :
  (∀ a, a ∈ l → f a = g a) → forallb f l = forallb g l.
Proof.
  induction l as [|a l IH]; intros Hfg; [done|]. simpl.
  rewrite (Hfg a) by apply list_elem_of_here.
  rewrite IH; [done|]. intros b Hb. apply Hfg. by apply list_elem_of_further.
Qed.

Lemma height_item es (e : @model num) :
  e ∈ es → height e ≤ max_list (height <$> es).
Proof. intros He. apply max_list_elem_of_le, list_elem_of_fmap. by exists e. Qed.

(** The items of a sequence are no deeper than the sequence. *)
Lemma sequence_items_height (e y : @model num) :
  y ∈ sequence_items e → height y ≤ height e.
Proof.
  destruct e as [c no nc nf ot|c nf lr prior es|c nf n es|c items|c];
    cbn [sequence_items height].
  - by intros ?%elem_of_nil.
  - intros (e & -> & He)%list_elem_of_fmap. apply height_item in He.
    cbn [height]. rewrite fmap_cons, fmap_nil. cbn [max_list].
    change (id (height e)) with (height e). lia.
  - intros He%height_item. lia.
  - intros He%height_item. lia.
  - by intros ?%elem_of_nil.
Qed.

Lemma descend_height d (e x : @model num) :
  x ∈ descend d e → height x ≤ height e.
Proof.
  revert e x. induction d as [|d IH]; intros e x; simpl.
  - by intros ->%list_elem_of_singleton.
  - intros (y & Hx & Hy)%list_elem_of_bind.
    apply IH in Hx. apply sequence_items_height in Hy. lia.
Qed.

(** The elements of the array numpy makes of a list are no deeper than the
    members of the list. *)
Lemma np_asarray_flat_height es (x : @model num) :
  x ∈ np_asarray_flat es → height x ≤ max_list (height <$> es).
Proof.
  unfold np_asarray_flat. intros (e & Hx & He)%list_elem_of_bind.
  apply descend_height in Hx. apply height_item in He. lia.
Qed.

Lemma compilable_at_fuel f1 f2 clf :
  height clf < f1 → height clf < f2 → compilable_at f1 clf = compilable_at f2 clf.
Proof.
  revert f2 clf. induction f1 as [|f1 IH]; intros [|f2] clf H1 H2; try lia.
  destruct clf as [c no nc nf ot|c nf lr prior es|c nf n es|c items|c]; try reflexivity.
  - cbn [compilable_at]. cbn [height] in H1, H2. do 2 f_equal.
    apply forallb_ext_in. intros e He%height_item. f_equal. apply IH; lia.
  - cbn [compilable_at]. cbn [height] in H1, H2. cbv zeta. do 2 f_equal.
    apply forallb_ext_in. intros e He%np_asarray_flat_height. f_equal. apply IH; lia.
Qed.

(** The recursion of [compilable] never runs out of fuel: with more fuel the
    answer is the same. *)
Lemma compilable_at_enough fuel clf :
  height clf < fuel → compilable_at fuel clf = compilable clf.
Proof. intros Hf. apply compilable_at_fuel; [done|lia]. Qed.



Lemma compilable_forest cls nf n es :
  compilable (ForestRegressor cls nf n es)
  = py_and (PInt (Z.of_nat (length (np_asarray_flat es))))
      (PBool (forallb (λ e, truthy (compilable e)) (np_asarray_flat es))).
Proof.
  change (compilable (ForestRegressor cls nf n es))
    with (@py_and num (PInt (Z.of_nat (length (np_asarray_flat es))))
            (PBool (forallb (λ e, truthy (compilable_at (S (max_list (height <$> es))) e))
                      (np_asarray_flat es)))).
  do 2 f_equal.
  apply forallb_ext_in. intros e He%np_asarray_flat_height. f_equal.
  apply compilable_at_enough. lia.
Qed.

(** A list none of whose members is a sequence becomes the array of its
    members. *)
Lemma foldl_common_prefix_nil (ds : list (list nat)) : foldl common_prefix [] ds = [].
Proof. induction ds as [|d ds IH]; [done|]. simpl. exact IH. Qed.

Lemma np_asarray_flat_plain es :
  Forall (λ e : @model num, dims e = []) es → np_asarray_flat es = es.
Proof.
  intros Hes. unfold np_asarray_flat.
  assert (Hd : common_dims (dims <$> es) = []).
  { destruct Hes as [|e es' He _]; [done|]. simpl. rewrite He.
    apply foldl_common_prefix_nil. }
  rewrite Hd. cbn [length]. clear. induction es as [|e es IH]; [done|].
  rewrite bind_cons, IH. done.
Qed.






(** *** The checks of [predict] *)

Lemma predict_bad_dtype w self X Xarr :
  arrays w !! X = Some Xarr → arr_dtype Xarr ≠ DTYPE →
  predict self X w
  = (Raise (ValueError dtype_message [PDtype (arr_dtype Xarr); PDtype DTYPE]), w).
Proof.
  intros HX Hd. unfold predict.
  rewrite (bind_ok _ _ w Xarr w); [|unfold get_array; by rewrite HX].
  by rewrite bool_decide_eq_true_2.
Qed.

Lemma predict_bad_ndim w self X Xarr :
  arrays w !! X = Some Xarr → arr_dtype Xarr = DTYPE → length (arr_shape Xarr) ≠ 2 →
  predict self X w = (Raise (ValueError ndim_message [PShape (arr_shape Xarr)]), w).
Proof.
  intros HX Hd Hn. unfold predict.
  rewrite (bind_ok _ _ w Xarr w); [|unfold get_array; by rewrite HX].
  rewrite bool_decide_eq_false_2 by (intros Hc; by apply Hc).
  by rewrite bool_decide_eq_true_2.
Qed.

Lemma predict_bad_n_features w self X Xarr inst v n m :
  arrays w !! X = Some Xarr → arr_dtype Xarr = DTYPE → arr_shape Xarr = [n; m] →
  objects w !! self = Some inst → _n_features inst = Some v →
  py_eq_int v (Z.of_nat m) = false →
  predict self X w
  = (Raise (ValueError n_features_message [v; PInt (Z.of_nat m)]), w).
Proof.
  intros HX Hd Hsh Hself Hnf Hne. unfold predict.
  rewrite (bind_ok _ _ w Xarr w); [|unfold get_array; by rewrite HX].
  rewrite Hd, Hsh. rewrite bool_decide_eq_false_2 by (intros Hc; by apply Hc).
  rewrite bool_decide_eq_false_2 by (intros Hc; by apply Hc).
  rewrite (bind_ok _ _ w v w); [|unfold getattr; by rewrite Hself; simpl; rewrite Hnf].
  by rewrite Hne.
Qed.

Lemma shape_two_dimensional (sh : list nat) :
  length sh = 2 → ∃ n m, sh = [n; m].
Proof. destruct sh as [|n [|m [|? ?]]]; try done. by exists n, m. Qed.

(** Past the three checks, [predict] returns or fails in the evaluator; it
    raises no [ValueError] any more. *)
Lemma predict_past_checks w self X Xarr n nf inst :
  objects w !! self = Some inst → _n_features inst = Some (PInt (Z.of_nat nf)) →
  arrays w !! X = Some Xarr → arr_dtype Xarr = DTYPE → arr_shape Xarr = [n; nf] →
  (∃ y, (predict self X w).1 = Ok y)
  ∨ (predict self X w).1 = Raise NativeFault
  ∨ (predict self X w).1 = Raise (AttributeError "_evaluator").
Proof.
  intros Hself Hnf HX Hd Hsh.
  destruct (_evaluator inst) as [ev|] eqn:Hev.
  - erewrite predict_valid by done. cbv zeta.
    destruct (predict_rows _ _ _ _ _) as [r w'] eqn:Hrun.
    apply predict_rows_frame in Hrun as (_ & _ & _ & _ & _ & [-> | ->] & _); eauto.
  - right; right. unfold predict.
    rewrite (bind_ok _ _ w Xarr w); [|unfold get_array; by rewrite HX].
    rewrite Hd, Hsh. rewrite bool_decide_eq_false_2 by (intros Hc; by apply Hc).
    rewrite bool_decide_eq_false_2 by (intros Hc; by apply Hc).
    rewrite (bind_ok _ _ w (PInt (Z.of_nat nf)) w);
      [|unfold getattr; by rewrite Hself; simpl; rewrite Hnf].
    unfold py_eq_int. rewrite Z.eqb_refl. change (negb true) with false. cbv iota.
    unfold bind at 1. unfold np_empty at 1.
    unfold bind at 1. unfold getattr at 1. simpl objects. rewrite Hself. simpl.
    by rewrite Hev.
Qed.

(** C6: on a predictor that recorded [nf] features, an input with the wrong
    element type, or not two-dimensional, or with a second dimension other
    than [nf], makes [predict] raise a [ValueError] that carries the
    mismatched values, and leaves the world as it was (no native call is
    logged); any other input raises no [ValueError]. *)
Theorem C6_predict_validates_input w self X Xarr inst nf :
  objects w !! self = Some inst →
  _n_features inst = Some (PInt (Z.of_nat nf)) →
  arrays w !! X = Some Xarr →
  (input_mismatch nf Xarr →
     ∃ template args,
       predict self X w = (Raise (ValueError template args), w)
       ∧ (args = [PDtype (arr_dtype Xarr); PDtype DTYPE]
          ∨ args = [PShape (arr_shape Xarr)]
          ∨ ∃ m, arr_shape Xarr !! 1 = Some m
                 ∧ args = [PInt (Z.of_nat nf); PInt (Z.of_nat m)]))
  ∧ (¬ input_mismatch nf Xarr →
       ∀ template args, (predict self X w).1 ≠ Raise (ValueError template args)).
Proof.
  intros Hself Hnf HX. split.
  - intros Hbad.
    destruct (decide (arr_dtype Xarr = DTYPE)) as [Hd|Hd]; cycle 1.
    { eexists _, _. split; [by apply predict_bad_dtype|by left]. }
    destruct (decide (length (arr_shape Xarr) = 2)) as [Hn|Hn]; cycle 1.
    { eexists _, _. split; [by apply predict_bad_ndim|right; by left]. }
    destruct (shape_two_dimensional _ Hn) as (n & m & Hsh).
    destruct Hbad as [?|[?|(m' & Hm' & Hne)]]; try done.
    rewrite Hsh in Hm'. injection Hm' as <-.
    eexists _, _. split.
    + eapply predict_bad_n_features; try done. simpl. apply Z.eqb_neq. lia.
    + right; right. exists m. by rewrite Hsh.
  - intros Hgood template args.
    destruct (decide (arr_dtype Xarr = DTYPE)) as [Hd|Hd];
      [|exfalso; apply Hgood; by left].
    destruct (decide (length (arr_shape Xarr) = 2)) as [Hn|Hn];
      [|exfalso; apply Hgood; right; by left].
    destruct (shape_two_dimensional _ Hn) as (n & m & Hsh).
    destruct (decide (m = nf)) as [->|Hm];
      [|exfalso; apply Hgood; right; right; exists m; by rewrite Hsh].
    destruct (predict_past_checks w self X Xarr n nf inst) as [[y ->]|[-> | ->]]; done.
Qed.

(** C9: [predict] tests the element type first, the number of dimensions
    second and the feature count last: a wrong element type raises the type
    error whatever the shape (and whatever the predictor), a wrong number of
    dimensions with the right element type raises the dimension error, and
    the feature-count error is only raised on a two-dimensional input of the
    right element type. *)
Theorem C9_predict_check_order w self X Xarr :
  arrays w !! X = Some Xarr →
  (arr_dtype Xarr ≠ DTYPE →
     predict self X w
     = (Raise (ValueError dtype_message [PDtype (arr_dtype Xarr); PDtype DTYPE]), w))
  ∧ (arr_dtype Xarr = DTYPE → length (arr_shape Xarr) ≠ 2 →
       predict self X w
       = (Raise (ValueError ndim_message [PShape (arr_shape Xarr)]), w))
  ∧ (∀ args, (predict self X w).1 = Raise (ValueError n_features_message args) →
       arr_dtype Xarr = DTYPE ∧ length (arr_shape Xarr) = 2).
Proof.
  intros HX. split; [by apply predict_bad_dtype|]. split; [by apply predict_bad_ndim|].
  intros args Hraise.
  destruct (decide (arr_dtype Xarr = DTYPE)) as [Hd|Hd]; cycle 1.
  { rewrite (predict_bad_dtype _ _ _ _ HX Hd) in Hraise. simpl in Hraise.
    exfalso. by injection Hraise. }
  destruct (decide (length (arr_shape Xarr) = 2)) as [Hn|Hn]; [done|].
  rewrite (predict_bad_ndim _ _ _ _ HX Hd Hn) in Hraise. simpl in Hraise.
  exfalso. by injection Hraise.
Qed.

(** C10: a call of [predict] on a valid input allocates a new output array
    (its address was free before the call) of [n_samples] cells and element
    type [DTYPE], returns that array when it returns, and changes nothing
    else: the instances (hence the recorded feature count, the evaluator
    and the module path of the predictor), the files and every other array
    are as before.  A second call allocates another array, leaves the first
    result alone and computes the same values. *)
Theorem C10_predict_allocates_fresh_output w self X Xarr n nf ev inst :
  objects w !! self = Some inst →
  _n_features inst = Some (PInt (Z.of_nat nf)) →
  _evaluator inst = Some ev →
  arrays w !! X = Some Xarr →
  valid_input nf Xarr n →
  ∃ out data,
    arrays w !! out = None
    ∧ arrays (predict self X w).2 !! out = Some (mkArray DTYPE [n] data)
    ∧ length data = n
    ∧ (∀ y, (predict self X w).1 = Ok y → y = out)
    ∧ objects (predict self X w).2 = objects w
    ∧ files (predict self X w).2 = files w
    ∧ (∀ a, a ≠ out → arrays (predict self X w).2 !! a = arrays w !! a)
    ∧ (∀ y1 w1 y2 w2,
         predict self X w = (Ok y1, w1) → predict self X w1 = (Ok y2, w2) →
         y2 ≠ y1
         ∧ arrays w2 !! y1 = arrays w1 !! y1
         ∧ arr_data <$> arrays w2 !! y2 = arr_data <$> arrays w1 !! y1).
Proof.
  intros Hself Hnf Hev HX Hvalid.
  pose proof Hvalid as (Hd & Hsh & Hlen).
  assert (Hfresh : arrays w !! fresh (dom (arrays w)) = None).
  { apply not_elem_of_dom, is_fresh. }
  assert (Hne : fresh (dom (arrays w)) ≠ X).
  { intros Heq. rewrite Heq, HX in Hfresh. done. }
  pose proof (predict_valid w self X Xarr n nf ev inst Hself Hnf Hev HX Hd Hsh) as Hp.
  cbv zeta in Hp.
  destruct (predict_rows ev _ 0 _ _) as [r w'] eqn:Hrun.
  pose proof Hrun as Hrun'.
  apply predict_rows_frame in Hrun as (Hf & _ & Ho & Ha & Hout & Hr & Hvs).
  simpl in Hf, Ho, Ha, Hout.
  destruct (Hout (mkArray DTYPE [n] (replicate n num_zero))) as (data & Hdata & Hl);
    [apply lookup_insert_eq|]. simpl in Hdata, Hl. rewrite length_replicate in Hl.
  assert (Hw : (predict self X w).2 = w') by (rewrite Hp; by destruct r).
  exists (fresh (dom (arrays w))), data. rewrite Hw.
  split; [done|]. split; [done|]. split; [done|]. split.
  { intros y. rewrite Hp. destruct r; simpl; congruence. }
  split; [done|]. split; [done|]. split.
  { intros a Hneq. by rewrite Ha, lookup_insert_ne. }
  intros y1 w1 y2 w2 H1 H2. rewrite Hp in H1.
  destruct r as [[]|e]; [|done]. injection H1 as <- <-.
  destruct (Hvs eq_refl) as [vs HF].
  pose proof (predict_ok w self X Xarr n nf ev inst vs Hself Hnf Hev HX Hvalid HF) as Hfirst.
  rewrite Hp in Hfirst. injection Hfirst as ->.
  rewrite predict_ok with (Xarr := Xarr) (n := n) (nf := nf) (ev := ev) (inst := inst)
                          (vs := vs) in H2; try done; cycle 1.
  { simpl. by rewrite lookup_insert_ne. }
  injection H2 as <- <-. simpl.
  assert (Hne2 : fresh (dom (<[fresh (dom (arrays w))
                               := mkArray DTYPE [n] (num_float32 <$> vs)]> (arrays w)))
                 ≠ fresh (dom (arrays w))).
  { intros Heq.
    apply (is_fresh (dom (<[fresh (dom (arrays w))
                            := mkArray DTYPE [n] (num_float32 <$> vs)]> (arrays w)))).
    rewrite Heq. apply elem_of_dom. rewrite lookup_insert_eq. by eexists. }
  split; [done|]. split.
  - by rewrite lookup_insert_ne.
  - by rewrite !lookup_insert_eq.
Qed.

(** *** Persistence *)

Lemma __getstate___spec w self inst v path b :
  objects w !! self = Some inst →
  _n_features inst = Some v → _so_f inst = Some path →
  files w !! path = Some b →
  __getstate__ self w
  = (Ok (<["n_features" := v]> (<["so_f" := PBytes b]> ∅)), w).
Proof.
  intros Hself Hnf Hso Hfile. unfold __getstate__.
  rewrite (bind_ok _ _ w v w); [|unfold getattr; by rewrite Hself; simpl; rewrite Hnf].
  rewrite (bind_ok _ _ w path w); [|unfold getattr; by rewrite Hself; simpl; rewrite Hso].
  rewrite (bind_ok _ _ w b w); [|unfold read_file; by rewrite Hfile].
  done.
Qed.

Lemma restore_spec (state : gmap string pyval) w code fd v :
  state !! "so_f" = Some (PBytes (SharedObject code)) →
  state !! "n_features" = Some v →
  find_symbol code EVALUATE_FN_NAME = Some fd →
  restore state w
  = (Ok (fresh (dom (objects w))),
     mkWorld (<[fresh (dom (files w)) := SharedObject code]> (files w)) (compiler_ok w)
       (<[fresh (dom (objects w)) :=
            mkInstance (Some v) (Some (mkEvaluator code fd)) (Some (fresh (dom (files w))))]>
          (objects w))
       (arrays w)
       (log w ++ [EvLoad (fresh (dom (files w))) EVALUATE_FN_NAME])).
Proof.
  intros Hso Hnf Hfd.
  unfold restore, __setstate__, bind, new_instance, NamedTemporaryFile, getitem.
  rewrite Hso, Hnf. unfold ret, write_file, setattr, CompiledPredictor, bind, emit.
  simpl. rewrite insert_insert_eq, lookup_insert_eq. rewrite Hfd. simpl.
  by rewrite !alter_insert_eq.
Qed.

(** [predict] reads two attributes of the instance and nothing else of it. *)
Lemma predict_ext w p q ip iq X :
  objects w !! p = Some ip → objects w !! q = Some iq →
  _n_features ip = _n_features iq → _evaluator ip = _evaluator iq →
  predict p X w = predict q X w.
Proof.
  intros Hp Hq Hnf Hev. unfold predict, bind, get_array.
  destruct (arrays w !! X) as [Xarr|]; [|done].
  destruct (bool_decide (arr_dtype Xarr ≠ DTYPE)); [done|].
  destruct (bool_decide (length (arr_shape Xarr) ≠ 2)); [done|].
  destruct (arr_shape Xarr) as [|n [|m [|? ?]]]; try done.
  unfold getattr at 1 3. rewrite Hp, Hq. simpl. rewrite Hnf.
  destruct (_n_features iq) as [v|]; [|done].
  destruct (negb (py_eq_int v (Z.of_nat m))); [done|].
  unfold np_empty, getattr. simpl. rewrite Hp, Hq. simpl. by rewrite Hev.
Qed.

(** C7: for every compilable (fitted) model, with the compiler at hand, the
    predictor is built, its state is taken and a predictor is restored from
    that state; the restored predictor is a new, ready instance that answers
    every input exactly as the original does, and restoring only loaded the
    re-materialised module: no call to the code generator or the compiler
    was made. *)
Theorem C7_restore_round_trip clf w :
  truthy (compilable clf) = true → fitted_ok clf = true → compiler_ok w = true →
  ∃ p w1 state q w2 path,
    new_predictor clf w = (Ok p, w1)
    ∧ __getstate__ p w1 = (Ok state, w1)
    ∧ restore state w1 = (Ok q, w2)
    ∧ q ≠ p
    ∧ ready w2 q
    ∧ objects w2 !! p = objects w1 !! p
    ∧ (∀ X, predict q X w2 = predict p X w2)
    ∧ log w2 = log w1 ++ [EvLoad path EVALUATE_FN_NAME]
    ∧ files w1 !! path = None.
Proof.
  intros Hc Hok Hcc.
  destruct (new_predictor_spec clf w Hc Hok Hcc) as (code & fd & Hfd & _ & Hnew).
  set (p := fresh (dom (objects w))) in *.
  set (so := fresh (dom (files w))) in *.
  set (inst := mkInstance (Some (PInt (Z.of_nat (model_n_features clf))))
                 (Some (mkEvaluator code fd)) (Some so)) in *.
  set (w1 := mkWorld (<[so := SharedObject code]> (files w)) true
               (<[p := inst]> (objects w)) (arrays w)
               (log w ++ [code_gen_call clf; EvCompile code; EvLoad so EVALUATE_FN_NAME]))
    in *.
  assert (Hp : objects w1 !! p = Some inst) by apply lookup_insert_eq.
  assert (Hq : fresh (dom (objects w1)) ≠ p).
  { intros Heq. apply (is_fresh (dom (objects w1))). rewrite Heq.
    apply elem_of_dom. by eexists. }
  eexists p, w1, _, _, _, (fresh (dom (files w1))).
  split; [exact Hnew|]. split.
  { eapply __getstate___spec; [exact Hp|done|done|]. simpl. apply lookup_insert_eq. }
  split.
  { eapply restore_spec; [|by rewrite lookup_insert_eq|exact Hfd].
    rewrite lookup_insert_ne by done. by rewrite lookup_insert_eq. }
  split; [done|]. split.
  { exists (model_n_features clf), code, fd, (fresh (dom (files w1))). simpl.
    by rewrite !lookup_insert_eq. }
  split; [simpl; by rewrite lookup_insert_ne|]. split.
  { intros X. eapply predict_ext; simpl.
    - apply lookup_insert_eq.
    - rewrite lookup_insert_ne by done. exact Hp.
    - done.
    - done. }
  split; [done|]. apply not_elem_of_dom, is_fresh.
Qed.

(** C8, amended: the state of a predictor is a dictionary of exactly two
    entries, the recorded feature count under [n_features] and the bytes of
    the module file under [so_f]; the name of the entry point is not part of
    it.  Restoring writes these bytes to a fresh temporary file and resolves
    from it the fixed name [EVALUATE_FN_NAME]. *)
Theorem C8_state_is_feature_count_and_module_bytes w self inst v path code fd :
  objects w !! self = Some inst →
  _n_features inst = Some v →
  _so_f inst = Some path →
  files w !! path = Some (SharedObject code) →
  find_symbol code EVALUATE_FN_NAME = Some fd →
  ∃ state,
    __getstate__ self w = (Ok state, w)
    ∧ state = <["n_features" := v]> (<["so_f" := PBytes (SharedObject code)]> ∅)
    ∧ dom state = {["n_features"; "so_f"]}
    ∧ ∀ wr, ∃ q w',
        restore state wr = (Ok q, w')
        ∧ files w' = <[fresh (dom (files wr)) := SharedObject code]> (files wr)
        ∧ objects w' !! q
          = Some (mkInstance (Some v) (Some (mkEvaluator code fd))
                    (Some (fresh (dom (files wr)))))
        ∧ log w' = log wr ++ [EvLoad (fresh (dom (files wr))) EVALUATE_FN_NAME].
Proof.
  intros Hself Hnf Hso Hfile Hfd. eexists. split; [by eapply __getstate___spec|].
  split; [done|]. split.
  { rewrite !dom_insert_L, dom_empty_L. set_solver. }
  intros wr. eexists _, _. split.
  { eapply restore_spec; [|by rewrite lookup_insert_eq|exact Hfd].
    rewrite lookup_insert_ne by done. by rewrite lookup_insert_eq. }
  simpl. split; [done|]. split; [by rewrite lookup_insert_eq|done].
Qed.

End Properties.

(** ** Concrete runs *)

(** The scenario of the depth-1 tree: inputs 0.25, 0.5 (equal to the
    threshold, routed left) and 0.75 give 1.0, 1.0 and 2.0. *)
Example stump_walks :
  tree_predict stump [0.25%float] = Some 1%float
  ∧ tree_predict stump [0.5%float] = Some 1%float
  ∧ tree_predict stump [0.75%float] = Some 2%float.
Proof. repeat split; reflexivity. Qed.

Example world1_predictor :
  built_stump.1 = Ok predictor1 ∧ objects world1 !! predictor1 = Some instance1.
Proof. split; vm_compute; reflexivity. Qed.

Lemma sample_X_valid : valid_input 1 sample_X 3.
Proof. repeat split. Defined.

Lemma C1_witness :
  (truthy (compilable stump_model) = true ∧ tree_ok 1 stump = true
   ∧ compiler_ok world0 = true ∧ arrays world0 !! 0 = Some sample_X
   ∧ valid_input 1 sample_X 3)
  ∧ ∃ self w1 y w2 vs ev,
      new_predictor stump_model world0 = (Ok self, w1)
      ∧ objects w1 !! self ≫= _evaluator = Some ev
      ∧ (∀ x, call_fundef (ev_module ev) (ev_entry ev) x = walk (length stump) stump x 0)
      ∧ predict self 0 w1 = (Ok y, w2)
      ∧ arrays w2 !! y = Some (mkArray DTYPE [3] (num_float32 <$> vs))
      ∧ Forall2 (λ x v, walk (length stump) stump x 0 = Some v)
          (rows 3 1 (arr_data sample_X)) vs.
Proof.
  split.
  - repeat split; reflexivity.
  - apply (C1_single_tree_prediction_is_narrowed_walk
             "DecisionTreeRegressor" (Some 1%Z) (Some 1%Z) 1 stump world0 0 sample_X 3);
      [reflexivity | reflexivity | reflexivity | reflexivity | exact sample_X_valid].
Defined.

(** C1 as stated fails: on the tree of one leaf of value 0.1 the walk returns
    0.1, the double-precision number, and [predict] returns the
    single-precision number next to it, which is another number. *)
Lemma C1_counterexample :
  truthy (compilable tenth_model) = true
  ∧ tree_ok 1 tenth_tree = true
  ∧ tree_predict tenth_tree [0.25%float] = Some 0x1.999999999999ap-4%float
  ∧ PrimFloat.eqb 0x1.99999ap-4 0x1.999999999999ap-4 = false
  ∧ ∃ self w1 y w2,
      new_predictor tenth_model world0 = (Ok self, w1)
      ∧ predict self 0 w1 = (Ok y, w2)
      ∧ arr_data <$> arrays w2 !! y
        = Some [0x1.99999ap-4; 0x1.99999ap-4; 0x1.99999ap-4]%float.
Proof.
  split; [reflexivity|]. split; [reflexivity|]. split; [reflexivity|].
  split; [reflexivity|].
  eexists _, _, _, _. split; [vm_compute; reflexivity|].
  split; vm_compute; reflexivity.
Qed.



(** The scenario of two such trees with weight 0.5 and initial value 0:
    [0.5 * (1.0 + 1.0) = 1.0] on the first two inputs. *)
Example forest_predictions :
  model_predict forest_model [0.25%float] = Some 1%float
  ∧ model_predict forest_model [0.5%float] = Some 1%float
  ∧ model_predict forest_model [0.75%float] = Some 2%float.
Proof. repeat split; reflexivity. Qed.





(** A forest whose only member is a forest without members: the array has
    shape [(1, 0)] and no element, and the answer is its size, [0]. *)
Example hollow_forest_answer :
  np_asarray_shape [ForestRegressor "RandomForestRegressor" 1 0 ([] : list (@model float))]
  = [1; 0]
  ∧ compilable hollow_forest_model = PInt 0.
Proof. split; reflexivity. Qed.

Lemma flat_X_mismatch : input_mismatch 1 flat_X.
Proof. right; left. simpl. lia. Defined.

Lemma sample_X_no_mismatch : ¬ input_mismatch 1 sample_X.
Proof.
  intros [Hd|[Hn|(m & Hm & Hne)]].
  - by apply Hd.
  - by apply Hn.
  - simpl in Hm. injection Hm as <-. by apply Hne.
Defined.

Lemma C6_witness :
  (objects world1 !! predictor1 = Some instance1
   ∧ _n_features instance1 = Some (PInt (Z.of_nat 1))
   ∧ arrays world1 !! 1 = Some flat_X ∧ arrays world1 !! 0 = Some sample_X
   ∧ input_mismatch 1 flat_X ∧ ¬ input_mismatch 1 sample_X)
  ∧ (∃ template args,
       predict predictor1 1 world1 = (Raise (ValueError template args), world1)
       ∧ (args = [PDtype (arr_dtype flat_X); PDtype DTYPE]
          ∨ args = [PShape (arr_shape flat_X)]
          ∨ ∃ m, arr_shape flat_X !! 1 = Some m
                 ∧ args = [PInt (Z.of_nat 1); PInt (Z.of_nat m)]))
  ∧ (∀ template args,
       (predict predictor1 0 world1).1 ≠ Raise (ValueError template args)).
Proof.
  assert (H1 : objects world1 !! predictor1 = Some instance1)
    by (vm_compute; reflexivity).
  assert (H2 : arrays world1 !! 1 = Some flat_X) by (vm_compute; reflexivity).
  assert (H3 : arrays world1 !! 0 = Some sample_X) by (vm_compute; reflexivity).
  split; [|split].
  - split; [exact H1|]. split; [reflexivity|]. split; [exact H2|].
    split; [exact H3|]. split; [exact flat_X_mismatch|exact sample_X_no_mismatch].
  - exact (proj1 (C6_predict_validates_input world1 predictor1 1 flat_X instance1 1
                    H1 eq_refl H2) flat_X_mismatch).
  - exact (proj2 (C6_predict_validates_input world1 predictor1 0 sample_X instance1 1
                    H1 eq_refl H3) sample_X_no_mismatch).
Defined.

Lemma C7_witness :
  (truthy (compilable stump_model) = true ∧ fitted_ok stump_model = true
   ∧ compiler_ok world0 = true)
  ∧ ∃ p w1 state q w2 path,
      new_predictor stump_model world0 = (Ok p, w1)
      ∧ __getstate__ p w1 = (Ok state, w1)
      ∧ restore state w1 = (Ok q, w2)
      ∧ q ≠ p
      ∧ ready w2 q
      ∧ objects w2 !! p = objects w1 !! p
      ∧ (∀ X, predict q X w2 = predict p X w2)
      ∧ log w2 = log w1 ++ [EvLoad path EVALUATE_FN_NAME]
      ∧ files w1 !! path = None.
Proof.
  split; [repeat split; reflexivity|].
  apply (C7_restore_round_trip stump_model world0); reflexivity.
Defined.

Lemma C8_witness :
  (objects world1 !! predictor1 = Some instance1
   ∧ _n_features instance1 = Some (PInt 1)
   ∧ _so_f instance1 = Some (fresh (dom (files world0)))
   ∧ files world1 !! fresh (dom (files world0)) = Some (SharedObject stump_code)
   ∧ find_symbol stump_code EVALUATE_FN_NAME = Some (ev_entry stump_evaluator))
  ∧ ∃ state,
      __getstate__ predictor1 world1 = (Ok state, world1)
      ∧ state = <["n_features" := PInt 1]> (<["so_f" := PBytes (SharedObject stump_code)]> ∅)
      ∧ dom state = {["n_features"; "so_f"]}
      ∧ ∀ wr, ∃ q w',
          restore state wr = (Ok q, w')
          ∧ files w' = <[fresh (dom (files wr)) := SharedObject stump_code]> (files wr)
          ∧ objects w' !! q
            = Some (mkInstance (Some (PInt 1))
                      (Some (mkEvaluator stump_code (ev_entry stump_evaluator)))
                      (Some (fresh (dom (files wr)))))
          ∧ log w' = log wr ++ [EvLoad (fresh (dom (files wr))) EVALUATE_FN_NAME].
Proof.
  assert (H1 : objects world1 !! predictor1 = Some instance1)
    by (vm_compute; reflexivity).
  assert (H2 : files world1 !! fresh (dom (files world0)) = Some (SharedObject stump_code))
    by (vm_compute; reflexivity).
  split.
  - split; [exact H1|]. split; [reflexivity|]. split; [reflexivity|].
    split; [exact H2|reflexivity].
  - exact (C8_state_is_feature_count_and_module_bytes world1 predictor1 instance1
             (PInt 1) (fresh (dom (files world0))) stump_code (ev_entry stump_evaluator)
             H1 eq_refl eq_refl H2 eq_refl).
Defined.

(** C8 as stated fails: the state of the predictor built from the depth-1
    tree has two entries, the feature count and the module bytes, and none
    of them is the name of the entry point. *)
Lemma C8_counterexample :
  ∃ state,
    __getstate__ predictor1 world1 = (Ok state, world1)
    ∧ size state = 2
    ∧ state !! "n_features" = Some (PInt 1)
    ∧ state !! "so_f" = Some (PBytes (SharedObject stump_code))
    ∧ map_Forall (λ _ v, v ≠ PStr EVALUATE_FN_NAME) state.
Proof.
  exists (<["n_features" := PInt 1]> (<["so_f" := PBytes (SharedObject stump_code)]> ∅)).
  split; [vm_compute; reflexivity|]. split; [vm_compute; reflexivity|].
  split; [vm_compute; reflexivity|]. split; [vm_compute; reflexivity|].
  apply map_Forall_insert_2; [done|]. apply map_Forall_insert_2; [done|].
  apply map_Forall_empty.
Qed.

Lemma C9_witness :
  arrays world1 !! 2 = Some double_flat_X
  ∧ arr_dtype double_flat_X ≠ DTYPE
  ∧ length (arr_shape double_flat_X) ≠ 2
  ∧ predict predictor1 2 world1
    = (Raise (ValueError dtype_message [PDtype float64; PDtype DTYPE]), world1)
  ∧ arrays world1 !! 1 = Some flat_X
  ∧ arr_dtype flat_X = DTYPE
  ∧ predict predictor1 1 world1
    = (Raise (ValueError ndim_message [PShape [3]]), world1).
Proof.
  assert (H2 : arrays world1 !! 2 = Some double_flat_X) by (vm_compute; reflexivity).
  assert (H1 : arrays world1 !! 1 = Some flat_X) by (vm_compute; reflexivity).
  assert (Hd : arr_dtype double_flat_X ≠ DTYPE) by (simpl; discriminate).
  assert (Hn : length (arr_shape flat_X) ≠ 2) by (simpl; lia).
  split; [exact H2|]. split; [exact Hd|]. split; [simpl; lia|]. split.
  - exact (proj1 (C9_predict_check_order world1 predictor1 2 double_flat_X H2) Hd).
  - split; [exact H1|]. split; [reflexivity|].
    exact (proj1 (proj2 (C9_predict_check_order world1 predictor1 1 flat_X H1))
             eq_refl Hn).
Defined.

Lemma C10_witness :
  (objects world1 !! predictor1 = Some instance1
   ∧ _n_features instance1 = Some (PInt (Z.of_nat 1))
   ∧ _evaluator instance1 = Some stump_evaluator
   ∧ arrays world1 !! 0 = Some sample_X
   ∧ valid_input 1 sample_X 3)
  ∧ ∃ out data,
      arrays world1 !! out = None
      ∧ arrays (predict predictor1 0 world1).2 !! out = Some (mkArray DTYPE [3] data)
      ∧ length data = 3
      ∧ (∀ y, (predict predictor1 0 world1).1 = Ok y → y = out)
      ∧ objects (predict predictor1 0 world1).2 = objects world1
      ∧ files (predict predictor1 0 world1).2 = files world1
      ∧ (∀ a, a ≠ out → arrays (predict predictor1 0 world1).2 !! a = arrays world1 !! a)
      ∧ (∀ y1 w1 y2 w2,
           predict predictor1 0 world1 = (Ok y1, w1) →
           predict predictor1 0 w1 = (Ok y2, w2) →
           y2 ≠ y1
           ∧ arrays w2 !! y1 = arrays w1 !! y1
           ∧ arr_data <$> arrays w2 !! y2 = arr_data <$> arrays w1 !! y1).
Proof.
  assert (H1 : objects world1 !! predictor1 = Some instance1)
    by (vm_compute; reflexivity).
  assert (H3 : arrays world1 !! 0 = Some sample_X) by (vm_compute; reflexivity).
  split.
  - split; [exact H1|]. split; [reflexivity|]. split; [reflexivity|].
    split; [exact H3|exact sample_X_valid].
  - exact (C10_predict_allocates_fresh_output world1 predictor1 0 sample_X 3 1
             stump_evaluator instance1 H1 eq_refl eq_refl H3 sample_X_valid).
Defined.

(** What the predictor answers on the three samples, and on an input with
    three columns. *)
Example predictor1_answers :
  ∃ y w2, predict predictor1 0 world1 = (Ok y, w2)
          ∧ arr_data <$> arrays w2 !! y = Some [1; 1; 2]%float.
Proof. eexists _, _. split; vm_compute; reflexivity. Qed.

Example predictor1_rejects_wide_input :
  predict predictor1 3 world1
  = (Raise (ValueError n_features_message [PInt 1; PInt 3]), world1).
Proof. vm_compute. reflexivity. Qed.

(** ** Further properties of the facade *)

Section Extras.

Context {num : Type} `{Arith num} `{EntryPoint}.

Implicit Types (clf : @model num) (es : list (@model num)).
Implicit Types (w wr : @world num) (ev : @evaluator num).
Implicit Types (rs : list (list num)) (vs ys : list num).
Implicit Types (arr Xarr : @ndarray num) (inst : @instance num).
Implicit Types (state : gmap string (@pyval num)) (b : @blob num).
Implicit Types (code : list (@fundef num)) (fd : @fundef num).
Implicit Types (ot : option (list (@Node num))) (ots : list (option (list (@Node num)))).

(** *** [__setstate__] on states that cannot be restored *)

(** X1: a state without the key [so_f], or with it but without the key
    [n_features], makes [__setstate__] raise [KeyError] for that key.  No
    attribute of the instance is assigned and no module is loaded, but the
    temporary file has been created and stays behind: empty in the first
    case, holding the module bytes in the second. *)
Theorem X1_setstate_missing_key self state w :
  (state !! "so_f" = None →
     __setstate__ self state w
     = (Raise (KeyError "so_f"),
        mkWorld (<[fresh (dom (files w)) := OtherBytes EmptyString]> (files w))
          (compiler_ok w) (objects w) (arrays w) (log w)))
  ∧ (∀ b, state !! "so_f" = Some (PBytes b) → state !! "n_features" = None →
       __setstate__ self state w
       = (Raise (KeyError "n_features"),
          mkWorld (<[fresh (dom (files w)) := b]> (files w))
            (compiler_ok w) (objects w) (arrays w) (log w))).
Proof.
  split.
  - intros Hso. unfold __setstate__, bind, NamedTemporaryFile, getitem.
    by rewrite Hso.
  - intros b Hso Hnf. unfold __setstate__, bind, NamedTemporaryFile, getitem.
    rewrite Hso, Hnf. unfold ret, write_file, raise. simpl.
    by rewrite insert_insert_eq.
Qed.

(** X2: when the bytes of the state are not a module the loader accepts,
    [__setstate__] on an instance raises the load failure after it has
    assigned [_n_features] and [_so_f]: the instance is left with the new
    feature count and the new path, and with the evaluator it had before (none
    for a new instance). *)
Theorem X2_setstate_load_failure_half_assigns self state w inst b v :
  objects w !! self = Some inst →
  state !! "so_f" = Some (PBytes b) →
  state !! "n_features" = Some v →
  loadable b = false →
  ∃ w',
    __setstate__ self state w
    = (Raise (LoadFailure (fresh (dom (files w))) EVALUATE_FN_NAME), w')
    ∧ objects w' !! self
      = Some (mkInstance (Some v) (_evaluator inst) (Some (fresh (dom (files w)))))
    ∧ files w' = <[fresh (dom (files w)) := b]> (files w)
    ∧ log w' = log w ++ [EvLoad (fresh (dom (files w))) EVALUATE_FN_NAME].
Proof.
  intros Hself Hso Hnf Hload.
  unfold __setstate__, bind, NamedTemporaryFile, getitem.
  rewrite Hso, Hnf. unfold ret, write_file, setattr, CompiledPredictor, bind, emit.
  simpl. rewrite insert_insert_eq, lookup_insert_eq.
  assert (Hobj : alter (set_so_f (fresh (dom (files w)))) self
                   (alter (set_n_features v) self (objects w)) !! self
                 = Some (mkInstance (Some v) (_evaluator inst)
                           (Some (fresh (dom (files w)))))).
  { by rewrite !lookup_alter_eq, Hself. }
  destruct b as [code|str]; simpl in Hload.
  - destruct (find_symbol code EVALUATE_FN_NAME) as [fd|] eqn:Hfd.
    + rewrite bool_decide_eq_true_2 in Hload by by eexists. done.
    + eexists. split; [done|]. by simpl.
  - eexists. split; [done|]. by simpl.
Qed.

(** X3: taking the state of an instance right after [__setstate__] gives back
    the feature count and the module bytes of the state it was set from;
    other entries of that state are dropped, so a state of exactly these two
    entries comes back as it was. *)
Theorem X3_getstate_after_setstate self state w inst code v :
  objects w !! self = Some inst →
  state !! "so_f" = Some (PBytes (SharedObject code)) →
  state !! "n_features" = Some v →
  is_Some (find_symbol code EVALUATE_FN_NAME) →
  ∃ w' state',
    __setstate__ self state w = (Ok tt, w')
    ∧ __getstate__ self w' = (Ok state', w')
    ∧ state' = <["n_features" := v]> (<["so_f" := PBytes (SharedObject code)]> ∅)
    ∧ (dom state = {["n_features"; "so_f"]} → state' = state).
Proof.
  intros Hself Hso Hnf [fd Hfd].
  unfold __setstate__, bind, NamedTemporaryFile, getitem.
  rewrite Hso, Hnf. unfold ret, write_file, setattr, CompiledPredictor, bind, emit.
  simpl. rewrite insert_insert_eq, lookup_insert_eq. rewrite Hfd.
  eexists _, _. split; [done|]. split; [|split; [done|]].
  - eapply __getstate___spec; simpl.
    + by rewrite !lookup_alter_eq, Hself.
    + done.
    + done.
    + apply lookup_insert_eq.
  - intros Hdom. apply map_eq. intros k.
    destruct (decide (k = "n_features")) as [->|Hk1];
      [by rewrite lookup_insert_eq|rewrite lookup_insert_ne by done].
    destruct (decide (k = "so_f")) as [->|Hk2];
      [by rewrite lookup_insert_eq|rewrite lookup_insert_ne by done].
    rewrite lookup_empty. symmetry. apply not_elem_of_dom. rewrite Hdom.
    rewrite elem_of_union, !elem_of_singleton. by intros [?|?].
Qed.

(** *** Failures of [_build] past its validation *)

(** X5: an ensemble that [compilable] accepts but one of whose members is
    not a tree regressor (a nested ensemble) makes [_build] raise
    [AttributeError] on [tree_]; the world is as before, so neither the code
    generator nor the compiler has been called. *)
Theorem X5_build_member_without_tree clf es w :
  ensemble_members clf = Some es →
  truthy (compilable clf) = true →
  forallb is_tree_regressor es = false →
  _build clf w = (Raise (AttributeError "tree_"), w).
Proof.
  intros Hes Hc Hmem. rewrite _build_unfold by done.
  destruct clf as [c no nc nf ot|c nf lr prior es'|c nf n es'|c items|c];
    simpl in Hes; try done; injection Hes as ->;
    unfold bind; by rewrite for_each_tree_attr, Hmem.
Qed.

(** X6: a forest that [compilable] accepts, whose members are tree
    regressors and whose [n_estimators] is [0], makes [_build] raise
    [ZeroDivisionError] at [1.0 / clf.n_estimators], before the code generator
    is called. *)
Theorem X6_build_forest_zero_estimators cls nf es w :
  truthy (compilable (ForestRegressor cls nf 0 es)) = true →
  forallb is_tree_regressor es = true →
  _build (ForestRegressor cls nf 0 es) w = (Raise ZeroDivisionError, w).
Proof.
  intros Hc Hmem. rewrite _build_unfold by done.
  unfold bind. by rewrite for_each_tree_attr, Hmem.
Qed.

(** X7: whatever the model and the outcome, [_build] leaves the instances
    and the arrays as they were and every existing file in place with its
    content; it only adds files and log entries.  A failed [__init__] has
    therefore assigned no attribute. *)
Theorem X7_build_keeps_world clf w :
  build_frame w (_build clf w).2
  ∧ ∀ self e, (__init__ self clf w).1 = Raise e →
              build_frame w (__init__ self clf w).2.
Proof.
  split; [apply _build_keeps|].
  intros self e. pose proof (_build_keeps clf w) as Hk.
  unfold __init__, bind.
  destruct (_build clf w) as [[r|e'] w']; simpl in *; [done|].
  by intros _.
Qed.

(** *** [predict] and the rest of the world *)

(** X8: whatever the input and the state of the instance, and whether it
    returns or raises, [predict] leaves the files and the instances as they
    were and every existing array (its input among them) in place with its
    content; all it may add is its output array: the one address that was
    free before the call and may hold an array after it is the address
    [np.empty] allocates, and every other address holds what it held. *)
Theorem X8_predict_keeps_world self X w :
  files (predict self X w).2 = files w
  ∧ objects (predict self X w).2 = objects w
  ∧ compiler_ok (predict self X w).2 = compiler_ok w
  ∧ arrays w ⊆ arrays (predict self X w).2
  ∧ arrays w !! fresh (dom (arrays w)) = None
  ∧ (∀ a, a ≠ fresh (dom (arrays w)) →
       arrays (predict self X w).2 !! a = arrays w !! a).
Proof.
  assert (Hfresh : arrays w !! fresh (dom (arrays w)) = None)
    by apply not_elem_of_dom, is_fresh.
  destruct (predict self X w) as [r w1] eqn:Hp. simpl. revert Hp.
  unfold predict, bind, get_array.
  destruct (arrays w !! X) as [Xarr|] eqn:HX; [|by intros [= <- <-]].
  destruct (bool_decide (arr_dtype Xarr ≠ DTYPE)); [by intros [= <- <-]|].
  destruct (bool_decide (length (arr_shape Xarr) ≠ 2)); [by intros [= <- <-]|].
  destruct (arr_shape Xarr) as [|n [|m [|? ?]]] eqn:Hsh; try by intros [= <- <-].
  unfold getattr at 1.
  destruct (objects w !! self ≫= _n_features) as [v|]; [|by intros [= <- <-]].
  destruct (negb (py_eq_int v (Z.of_nat m))); [by intros [= <- <-]|].
  assert (Hne : fresh (dom (arrays w)) ≠ X).
  { intros Heq. rewrite Heq, HX in Hfresh. done. }
  unfold np_empty, getattr. simpl.
  destruct (objects w !! self ≫= _evaluator) as [ev|]; simpl.
  2:{ intros [= <- <-]. simpl. repeat split; try done.
      - by apply insert_subseteq.
      - intros a Ha. by rewrite lookup_insert_ne. }
  unfold evaluator_predict, bind, get_array. simpl.
  rewrite lookup_insert_ne by done. rewrite HX, Hsh.
  destruct (predict_rows ev _ 0 _ _) as [r' w'] eqn:Hrun.
  apply predict_rows_frame in Hrun as (Hf & Hc & Ho & Ha & _). simpl in *.
  assert (Hother : ∀ a, a ≠ fresh (dom (arrays w)) → arrays w' !! a = arrays w !! a).
  { intros a Hneq. by rewrite Ha, lookup_insert_ne. }
  assert (Hsub : arrays w ⊆ arrays w').
  { apply map_subseteq_spec. intros a arr Harr.
    rewrite Hother; [done|]. intros ->. congruence. }
  destruct r'; by intros [= <- <-].
Qed.

(** X9: on a matrix of no rows and the recorded number of columns, [predict]
    returns a new empty array without calling the evaluator: nothing is
    logged and the evaluator can be any. *)
Theorem X9_predict_empty_batch w self X Xarr nf ev inst :
  objects w !! self = Some inst →
  _n_features inst = Some (PInt (Z.of_nat nf)) →
  _evaluator inst = Some ev →
  arrays w !! X = Some Xarr →
  arr_dtype Xarr = DTYPE →
  arr_shape Xarr = [0; nf] →
  predict self X w
  = (Ok (fresh (dom (arrays w))),
     mkWorld (files w) (compiler_ok w) (objects w)
       (<[fresh (dom (arrays w)) := mkArray DTYPE [0] []]> (arrays w)) (log w)).
Proof.
  intros Hself Hnf Hev HX Hd Hsh.
  by erewrite predict_valid by done.
Qed.

Lemma predict_rows_with_files ev rs i out fs w :
  predict_rows ev rs i out (with_files fs w)
  = ((predict_rows ev rs i out w).1, with_files fs (predict_rows ev rs i out w).2).
Proof.
  revert i w. induction rs as [|x rs IH]; intros i w; [done|].
  cbn [predict_rows]. unfold bind, emit, store. simpl.
  destruct (call_fundef (ev_module ev) (ev_entry ev) x) as [v|]; [|done].
  exact (IH (S i)
           (mkWorld (files w) (compiler_ok w) (objects w)
              (alter (λ arr, mkArray (arr_dtype arr) (arr_shape arr)
                               (<[i := as_dtype (arr_dtype arr) v]> (arr_data arr)))
                 out (arrays w))
              (log w ++ [EvNativeCall x]))).
Qed.

(** X10: [predict] does not read the files, and [__getstate__] does.  Once
    the module file of a predictor is removed, [predict] answers as it would
    with the file in place, while [__getstate__] raises [IOError] on the
    path. *)
Theorem X10_module_file_removed self X w inst v path :
  objects w !! self = Some inst →
  _n_features inst = Some v →
  _so_f inst = Some path →
  __getstate__ self (with_files (delete path (files w)) w)
  = (Raise (IOError path), with_files (delete path (files w)) w)
  ∧ predict self X (with_files (delete path (files w)) w)
    = ((predict self X w).1,
       with_files (delete path (files w)) (predict self X w).2).
Proof.
  intros Hself Hnf Hso. split.
  - unfold __getstate__.
    rewrite (bind_ok _ _ _ v (with_files (delete path (files w)) w));
      [|unfold getattr; simpl; by rewrite Hself; simpl; rewrite Hnf].
    rewrite (bind_ok _ _ _ path (with_files (delete path (files w)) w));
      [|unfold getattr; simpl; by rewrite Hself; simpl; rewrite Hso].
    unfold bind, read_file. simpl. by rewrite lookup_delete_eq.
  - generalize (delete path (files w)). intros fs.
    destruct (predict self X w) as [r w1] eqn:Hp. simpl. revert Hp.
    unfold predict, bind, get_array. simpl.
    destruct (arrays w !! X) as [Xarr|] eqn:HX; [|by intros [= <- <-]].
    destruct (bool_decide (arr_dtype Xarr ≠ DTYPE)); [by intros [= <- <-]|].
    destruct (bool_decide (length (arr_shape Xarr) ≠ 2)); [by intros [= <- <-]|].
    destruct (arr_shape Xarr) as [|n [|m [|? ?]]] eqn:Hsh; try by intros [= <- <-].
    unfold getattr at 1 3. simpl. rewrite Hself. simpl. rewrite Hnf.
    destruct (negb (py_eq_int v (Z.of_nat m))); [by intros [= <- <-]|].
    unfold np_empty, getattr. simpl. rewrite Hself. simpl.
    destruct (_evaluator inst) as [ev|]; [|by intros [= <- <-]].
    unfold evaluator_predict, bind, get_array. simpl.
    destruct (<[fresh (dom (arrays w)) := _]> (arrays w) !! X) as [Xarr'|];
      [|by intros [= <- <-]].
    destruct (arr_shape Xarr') as [|n' [|m' [|? ?]]]; try by intros [= <- <-].
    match goal with
    | |- context [predict_rows ev ?rs 0 ?out (mkWorld fs ?c ?o ?a ?l)] =>
        change (mkWorld fs c o a l)
          with (with_files fs (mkWorld (files w) c o a l));
        rewrite (predict_rows_with_files ev rs 0 out fs (mkWorld (files w) c o a l));
        destruct (predict_rows ev rs 0 out (mkWorld (files w) c o a l)) as [[[]|e] w']
    end; by intros [= <- <-].
Qed.

(** *** Building twice, restoring anywhere *)

Lemma predict_rows_sem_ext ev1 ev2 rs i out w :
  (∀ x, call_fundef (ev_module ev1) (ev_entry ev1) x
        = call_fundef (ev_module ev2) (ev_entry ev2) x) →
  predict_rows ev1 rs i out w = predict_rows ev2 rs i out w.
Proof.
  intros Hsem. revert i w. induction rs as [|x rs IH]; intros i w; [done|].
  cbn [predict_rows]. unfold bind, emit, store. rewrite Hsem.
  destruct (call_fundef (ev_module ev2) (ev_entry ev2) x); [apply IH|done].
Qed.

(** Two instances that recorded the same feature count and whose evaluators
    compute the same function answer every input alike. *)
Lemma predict_sem_ext w p q ip iq ev1 ev2 X :
  objects w !! p = Some ip → objects w !! q = Some iq →
  _n_features ip = _n_features iq →
  _evaluator ip = Some ev1 → _evaluator iq = Some ev2 →
  (∀ x, call_fundef (ev_module ev1) (ev_entry ev1) x
        = call_fundef (ev_module ev2) (ev_entry ev2) x) →
  predict p X w = predict q X w.
Proof.
  intros Hp Hq Hnf Hev1 Hev2 Hsem. unfold predict, bind, get_array.
  destruct (arrays w !! X) as [Xarr|]; [|done].
  destruct (bool_decide (arr_dtype Xarr ≠ DTYPE)); [done|].
  destruct (bool_decide (length (arr_shape Xarr) ≠ 2)); [done|].
  destruct (arr_shape Xarr) as [|n [|m [|? ?]]]; try done.
  unfold getattr at 1 3. rewrite Hp, Hq. simpl. rewrite Hnf.
  destruct (_n_features iq) as [v|]; [|done].
  destruct (negb (py_eq_int v (Z.of_nat m))); [done|].
  unfold np_empty, getattr. simpl. rewrite Hp, Hq. simpl. rewrite Hev1, Hev2.
  unfold evaluator_predict, bind, get_array. simpl.
  destruct (<[fresh (dom (arrays w)) := _]> (arrays w) !! X) as [Xarr'|]; [|done].
  destruct (arr_shape Xarr') as [|n' [|m' [|? ?]]]; try done.
  by rewrite (predict_rows_sem_ext ev1 ev2).
Qed.

(** X11: building twice from the same model runs the code generator and the
    compiler twice (nothing is cached) and gives two predictors that share
    nothing: two instances, two module files; the first predictor is as the
    first build left it, both are ready, and both answer every input
    alike. *)
Theorem X11_build_twice clf w :
  truthy (compilable clf) = true → fitted_ok clf = true → compiler_ok w = true →
  ∃ p1 w1 p2 w2 code path2,
    new_predictor clf w = (Ok p1, w1)
    ∧ new_predictor clf w1 = (Ok p2, w2)
    ∧ p2 ≠ p1
    ∧ objects w2 !! p1 = objects w1 !! p1
    ∧ ready w2 p1 ∧ ready w2 p2
    ∧ objects w2 !! p2 ≫= _so_f = Some path2
    ∧ objects w2 !! p1 ≫= _so_f ≠ Some path2
    ∧ files w1 !! path2 = None
    ∧ log w2 = log w1 ++ [code_gen_call clf; EvCompile code;
                           EvLoad path2 EVALUATE_FN_NAME]
    ∧ ∀ X, predict p2 X w2 = predict p1 X w2.
Proof.
  intros Hc Hok Hcc.
  destruct (new_predictor_spec clf w Hc Hok Hcc) as (code1 & fd1 & Hfd1 & Hcall1 & Hnew1).
  set (p1 := fresh (dom (objects w))) in *.
  set (path1 := fresh (dom (files w))) in *.
  set (inst1 := mkInstance (Some (PInt (Z.of_nat (model_n_features clf))))
                  (Some (mkEvaluator code1 fd1)) (Some path1)) in *.
  set (w1 := mkWorld (<[path1 := SharedObject code1]> (files w)) true
               (<[p1 := inst1]> (objects w)) (arrays w)
               (log w ++ [code_gen_call clf; EvCompile code1;
                          EvLoad path1 EVALUATE_FN_NAME])) in *.
  destruct (new_predictor_spec clf w1 Hc Hok eq_refl)
    as (code2 & fd2 & Hfd2 & Hcall2 & Hnew2).
  set (p2 := fresh (dom (objects w1))) in *.
  set (path2 := fresh (dom (files w1))) in *.
  assert (Hp : p2 ≠ p1).
  { intros Heq. apply (is_fresh (dom (objects w1))). fold p2. rewrite Heq.
    apply elem_of_dom. simpl. rewrite lookup_insert_eq. by eexists. }
  assert (Hpath : path2 ≠ path1).
  { intros Heq. apply (is_fresh (dom (files w1))). fold path2. rewrite Heq.
    apply elem_of_dom. simpl. rewrite lookup_insert_eq. by eexists. }
  assert (Hfree : files w1 !! path2 = None) by apply not_elem_of_dom, is_fresh.
  eexists p1, w1, p2, _, code2, path2.
  split; [exact Hnew1|]. split; [exact Hnew2|]. split; [done|]. simpl.
  split; [by rewrite lookup_insert_ne|]. split.
  { exists (model_n_features clf), code1, fd1, path1. simpl.
    rewrite lookup_insert_ne by done. rewrite lookup_insert_eq.
    rewrite lookup_insert_ne by done. by rewrite lookup_insert_eq. }
  split.
  { exists (model_n_features clf), code2, fd2, path2. simpl.
    by rewrite !lookup_insert_eq. }
  split; [by rewrite lookup_insert_eq|]. split.
  { rewrite lookup_insert_ne by done. rewrite lookup_insert_eq. simpl. congruence. }
  split; [done|]. split; [done|].
  intros X. eapply predict_sem_ext; simpl.
  - apply lookup_insert_eq.
  - rewrite lookup_insert_ne by done. apply lookup_insert_eq.
  - done.
  - done.
  - done.
  - intros x. simpl. by rewrite Hcall1, Hcall2.
Qed.

(** X12: whatever the state and the outcome, [__setstate__] on an instance
    leaves every existing file in place with its content (the temporary file
    is new), every other instance and every array as they were; a successful
    call adds exactly one file and logs exactly one load. *)
Theorem X12_setstate_keeps_world self state w :
  files w ⊆ files (__setstate__ self state w).2
  ∧ (∀ o, o ≠ self →
       objects (__setstate__ self state w).2 !! o = objects w !! o)
  ∧ arrays (__setstate__ self state w).2 = arrays w
  ∧ ((__setstate__ self state w).1 = Ok tt →
       (∃ b, files (__setstate__ self state w).2
             = <[fresh (dom (files w)) := b]> (files w))
       ∧ log (__setstate__ self state w).2
         = log w ++ [EvLoad (fresh (dom (files w))) EVALUATE_FN_NAME]).
Proof.
  assert (Hfree : files w !! fresh (dom (files w)) = None)
    by apply not_elem_of_dom, is_fresh.
  destruct (__setstate__ self state w) as [r w'] eqn:Hrun. simpl. revert Hrun.
  unfold __setstate__, bind, NamedTemporaryFile, getitem.
  destruct (state !! "so_f") as [so|]; simpl;
    [|intros [= <- <-]; simpl; repeat split; try done; by apply insert_subseteq].
  destruct so as [| | | | | |b]; simpl;
    try (intros [= <- <-]; simpl; repeat split; try done; by apply insert_subseteq).
  rewrite insert_insert_eq.
  destruct (state !! "n_features") as [v|]; simpl;
    [|intros [= <- <-]; simpl; repeat split; try done; by apply insert_subseteq].
  unfold setattr, CompiledPredictor, bind, emit. simpl. rewrite lookup_insert_eq.
  destruct b as [code|str]; simpl.
  - destruct (find_symbol code EVALUATE_FN_NAME) as [fd|]; simpl;
      intros [= <- <-]; simpl.
    + split; [by apply insert_subseteq|]. split.
      { intros o Hne. by rewrite !lookup_alter_ne. }
      split; [done|]. intros _. split; [by eexists|done].
    + split; [by apply insert_subseteq|]. split.
      { intros o Hne. by rewrite !lookup_alter_ne. }
      by split.
  - intros [= <- <-]; simpl.
    split; [by apply insert_subseteq|]. split.
    { intros o Hne. by rewrite !lookup_alter_ne. }
    by split.
Qed.

(** *** [compilable] on a forest as fitting leaves it *)

(** X13: when no member of a forest is a sequence (after fitting the members
    are tree regressors), the array [np.asarray] makes of the list of
    estimators holds the members themselves, and [compilable] answers
    [len(estimators_) and all(compilable(e) for e in estimators_)]. *)
Theorem X13_compilable_forest_of_plain_members cls nf n es :
  Forall (λ e, dims e = []) es →
  np_asarray_flat es = es
  ∧ np_asarray_shape es = [length es]
  ∧ compilable (ForestRegressor cls nf n es)
    = py_and (PInt (Z.of_nat (length es)))
        (PBool (forallb (λ e, truthy (compilable e)) es)).
Proof.
  intros Hes. split; [by apply np_asarray_flat_plain|]. split.
  - unfold np_asarray_shape. f_equal.
    destruct Hes as [|e es' He _]; [done|]. simpl. rewrite He.
    apply foldl_common_prefix_nil.
  - rewrite compilable_forest. by rewrite np_asarray_flat_plain.
Qed.

End Extras.

(** ** Concrete runs of the further properties *)

Lemma X2_witness :
  (objects world1 !! predictor1 = Some instance1
   ∧ junk_state !! "so_f" = Some (PBytes (OtherBytes "junk"))
   ∧ junk_state !! "n_features" = Some (PInt 7)
   ∧ loadable (OtherBytes "junk" : @blob float) = false)
  ∧ ∃ w',
      __setstate__ predictor1 junk_state world1
      = (Raise (LoadFailure (fresh (dom (files world1))) EVALUATE_FN_NAME), w')
      ∧ objects w' !! predictor1
        = Some (mkInstance (Some (PInt 7)) (_evaluator instance1)
                  (Some (fresh (dom (files world1)))))
      ∧ files w' = <[fresh (dom (files world1)) := OtherBytes "junk"]> (files world1)
      ∧ log w' = log world1 ++ [EvLoad (fresh (dom (files world1))) EVALUATE_FN_NAME].
Proof.
  assert (H1 : objects world1 !! predictor1 = Some instance1)
    by (vm_compute; reflexivity).
  assert (H2 : junk_state !! "so_f" = Some (PBytes (OtherBytes "junk")))
    by (vm_compute; reflexivity).
  assert (H3 : junk_state !! "n_features" = Some (PInt 7))
    by (vm_compute; reflexivity).
  split.
  - split; [exact H1|]. split; [exact H2|]. split; [exact H3|reflexivity].
  - exact (X2_setstate_load_failure_half_assigns predictor1 junk_state world1 instance1
             (OtherBytes "junk") (PInt 7) H1 H2 H3 eq_refl).
Defined.

Lemma X3_witness :
  (objects world1 !! predictor1 = Some instance1
   ∧ stump_state !! "so_f" = Some (PBytes (SharedObject stump_code))
   ∧ stump_state !! "n_features" = Some (PInt 1)
   ∧ is_Some (find_symbol stump_code EVALUATE_FN_NAME))
  ∧ ∃ w' state',
      __setstate__ predictor1 stump_state world1 = (Ok tt, w')
      ∧ __getstate__ predictor1 w' = (Ok state', w')
      ∧ state' = <["n_features" := PInt 1]>
                   (<["so_f" := PBytes (SharedObject stump_code)]> ∅)
      ∧ (dom stump_state = {["n_features"; "so_f"]} → state' = stump_state).
Proof.
  assert (H1 : objects world1 !! predictor1 = Some instance1)
    by (vm_compute; reflexivity).
  assert (H2 : stump_state !! "so_f" = Some (PBytes (SharedObject stump_code)))
    by (vm_compute; reflexivity).
  assert (H3 : stump_state !! "n_features" = Some (PInt 1))
    by (vm_compute; reflexivity).
  assert (H4 : is_Some (find_symbol stump_code EVALUATE_FN_NAME))
    by (eexists; reflexivity).
  split.
  - split; [exact H1|]. split; [exact H2|]. split; [exact H3|exact H4].
  - exact (X3_getstate_after_setstate predictor1 stump_state world1 instance1
             stump_code (PInt 1) H1 H2 H3 H4).
Defined.

Lemma X5_witness :
  (ensemble_members nested_model = Some [forest_model]
   ∧ truthy (compilable nested_model) = true
   ∧ forallb is_tree_regressor [forest_model] = false)
  ∧ _build nested_model world0 = (Raise (AttributeError "tree_"), world0).
Proof.
  split; [repeat split; reflexivity|].
  exact (X5_build_member_without_tree nested_model [forest_model] world0
           eq_refl eq_refl eq_refl).
Defined.

Lemma X6_witness :
  (truthy (compilable zero_forest_model) = true
   ∧ forallb is_tree_regressor [stump_model] = true)
  ∧ _build zero_forest_model world0 = (Raise ZeroDivisionError, world0).
Proof.
  split; [split; reflexivity|].
  exact (X6_build_forest_zero_estimators "RandomForestRegressor" 1 [stump_model] world0
           eq_refl eq_refl).
Defined.

Lemma X9_witness :
  (objects world_empty_batch !! predictor1 = Some instance1
   ∧ _n_features instance1 = Some (PInt (Z.of_nat 1))
   ∧ _evaluator instance1 = Some stump_evaluator
   ∧ arrays world_empty_batch !! 4 = Some empty_X
   ∧ arr_dtype empty_X = DTYPE ∧ arr_shape empty_X = [0; 1])
  ∧ predict predictor1 4 world_empty_batch
    = (Ok (fresh (dom (arrays world_empty_batch))),
       mkWorld (files world_empty_batch) (compiler_ok world_empty_batch)
         (objects world_empty_batch)
         (<[fresh (dom (arrays world_empty_batch)) := mkArray DTYPE [0] []]>
            (arrays world_empty_batch))
         (log world_empty_batch)).
Proof.
  assert (H1 : objects world_empty_batch !! predictor1 = Some instance1)
    by (vm_compute; reflexivity).
  assert (H2 : arrays world_empty_batch !! 4 = Some empty_X)
    by (vm_compute; reflexivity).
  split.
  - split; [exact H1|]. split; [reflexivity|]. split; [reflexivity|].
    split; [exact H2|]. split; reflexivity.
  - exact (X9_predict_empty_batch world_empty_batch predictor1 4 empty_X 1
             stump_evaluator instance1 H1 eq_refl eq_refl H2 eq_refl eq_refl).
Defined.

Lemma X10_witness :
  (objects world1 !! predictor1 = Some instance1
   ∧ _n_features instance1 = Some (PInt 1)
   ∧ _so_f instance1 = Some (fresh (dom (files world0))))
  ∧ __getstate__ predictor1
      (with_files (delete (fresh (dom (files world0))) (files world1)) world1)
    = (Raise (IOError (fresh (dom (files world0)))),
       with_files (delete (fresh (dom (files world0))) (files world1)) world1)
  ∧ predict predictor1 0
      (with_files (delete (fresh (dom (files world0))) (files world1)) world1)
    = ((predict predictor1 0 world1).1,
       with_files (delete (fresh (dom (files world0))) (files world1))
         (predict predictor1 0 world1).2).
Proof.
  assert (H1 : objects world1 !! predictor1 = Some instance1)
    by (vm_compute; reflexivity).
  split.
  - split; [exact H1|]. split; reflexivity.
  - exact (X10_module_file_removed predictor1 0 world1 instance1 (PInt 1)
             (fresh (dom (files world0))) H1 eq_refl eq_refl).
Defined.

Lemma X11_witness :
  (truthy (compilable stump_model) = true ∧ fitted_ok stump_model = true
   ∧ compiler_ok world0 = true)
  ∧ ∃ p1 w1 p2 w2 code path2,
      new_predictor stump_model world0 = (Ok p1, w1)
      ∧ new_predictor stump_model w1 = (Ok p2, w2)
      ∧ p2 ≠ p1
      ∧ objects w2 !! p1 = objects w1 !! p1
      ∧ ready w2 p1 ∧ ready w2 p2
      ∧ objects w2 !! p2 ≫= _so_f = Some path2
      ∧ objects w2 !! p1 ≫= _so_f ≠ Some path2
      ∧ files w1 !! path2 = None
      ∧ log w2 = log w1 ++ [code_gen_call stump_model; EvCompile code;
                             EvLoad path2 EVALUATE_FN_NAME]
      ∧ ∀ X, predict p2 X w2 = predict p1 X w2.
Proof.
  split; [repeat split; reflexivity|].
  apply (X11_build_twice stump_model world0); reflexivity.
Defined.

Lemma X13_witness :
  Forall (λ e : @model float, dims e = []) [stump_model; stump_model]
  ∧ np_asarray_flat [stump_model; stump_model] = [stump_model; stump_model]
  ∧ np_asarray_shape [stump_model; stump_model] = [2]
  ∧ compilable forest_model
    = py_and (PInt (Z.of_nat 2))
        (PBool (forallb (λ e, truthy (compilable e)) [stump_model; stump_model])).
Proof.
  assert (H1 : Forall (λ e : @model float, dims e = []) [stump_model; stump_model])
    by (repeat constructor).
  split; [exact H1|].
  exact (X13_compilable_forest_of_plain_members "RandomForestRegressor" 1 2%Z
           [stump_model; stump_model] H1).
Defined.
